(** * Tie-dye generator: fold stack, dye model and unfolder

    A shallow embedding of the simulation core of the tie-dye generator
    (FoldingEngine.js, ColorManager.js, DyePhysics.js, TShirtCanvas.js,
    PatternGenerator.js) together with the properties its specification
    states about it.

    Conventions of the embedding.
    - A JavaScript number that is a count, an index or a fold parameter
      entering a count ([numFolds], [rotations], [layerMultiplier],
      [layerCount], colour channels) is a [Z]; every other number
      (coordinates, intensities, radii, ratios, alphas) is a real number
      [R], i.e. IEEE doubles are idealised as reals, with [Math.sqrt],
      [Math.cos], [Math.sin] and [Math.PI] read as [sqrt], [cos], [sin]
      and [PI].  Every number of the embedding is finite: [NaN] and
      the infinities are not among them, and the fold parameters that
      enter a count are integers, so the properties below speak of
      calls with integer fold parameters and with arguments other than
      [NaN].  Where the rounding of doubles decides a result, the code
      is embedded once more with every rounding written out (module
      [Doubles]).
    - A JavaScript array is a [list] whose last element is the one
      [push] adds and [pop] removes.
    - [Math.random()] is an oracle [nat -> R]: its k-th result.
    - Canvas output is the list of gradient discs drawn, in order.
    - The constants of config/constants.js are the fields of the
      configuration records below; [distance] of utils.js is a function
      parameter. *)

From Stdlib Require Import Reals ZArith List String Bool Lia Lra.
Import ListNotations.

Set Implicit Arguments.

(** ** Configuration (config/constants.js) *)

Record ShirtConfig := {
  CENTER_X : R;
  CENTER_Y : R;
  WIDTH : R;
  HEIGHT : R
}.

Record FoldConfig := {
  MAX_LAYERS : Z;
  LAYER_OPACITY_STEP : R
}.

Record DyeConfig := {
  BRUSH_MIN_SIZE : R;
  BRUSH_MAX_SIZE : R;
  BRUSH_DEFAULT_SIZE : R;
  MIN_INTENSITY : R;
  MAX_INTENSITY : R;
  DEFAULT_INTENSITY : R;
  BLEED_RATE : R;
  ABSORPTION_RATE : R
}.

(** ** JavaScript primitives used by the modules *)

Module JS.

(** [arr.push(x)]. *)
Definition push {A} (arr : list A) (x : A) : list A := arr ++ [x].

(** [arr.pop()]: the last element and the remaining array, [None] on
    the empty array. *)
Fixpoint pop {A} (arr : list A) : option (A * list A) :=
  match arr with
  | [] => None
  | x :: rest =>
      match pop rest with
      | None => Some (x, [])
      | Some (y, rest') => Some (y, x :: rest')
      end
  end.

(** [arr.length]. *)
Definition length {A} (arr : list A) : Z := Z.of_nat (List.length arr).

(** [v || d] on an optional integer: [undefined] and [0] are falsy. *)
Definition orZ (v : option Z) (d : Z) : Z :=
  match v with
  | Some n => if (n =? 0)%Z then d else n
  | None => d
  end.

(** [v || d] on an optional real. *)
Definition orR (v : option R) (d : R) : R :=
  match v with
  | Some x => if Req_dec_T x 0 then d else x
  | None => d
  end.

(** [v || d] on an optional string: the empty string is falsy. *)
Definition orString (v : option string) (d : string) : string :=
  match v with
  | Some EmptyString => d
  | Some s => s
  | None => d
  end.

(** [v || d] on an optional array: every array is truthy. *)
Definition orArray {A} (v : option (list A)) (d : list A) : list A :=
  match v with
  | Some a => a
  | None => d
  end.

(** [a <= b] and [a >= b] on numbers, as booleans. *)
Definition leb (a b : R) : bool := if Rle_dec a b then true else false.
Definition geb (a b : R) : bool := leb b a.
Definition ltb (a b : R) : bool := if Rlt_dec a b then true else false.
Definition gtb (a b : R) : bool := ltb b a.

(** [Math.round]: nearest integer, halves towards +infinity. *)
Definition Math_round (x : R) : Z := Int_part (x + / 2).

(** [Array(n).fill(null).map((_, i) => f i)]: a [RangeError] ([None])
    when [n] is not a valid array length.  The length is an integer
    here; a length that is not an integer, which throws as well, does
    not arise from integer fold parameters and an integer cap. *)
Definition Array_fill_map {A} (n : Z) (f : nat -> A) : option (list A) :=
  if ((n <? 0) || (4294967295 <? n))%Z then None
  else Some (map f (seq 0 (Z.to_nat n))).

End JS.

(** ** Shared geometry *)

Record Point := { pt_x : R; pt_y : R }.

Record Line := { x1 : R; y1 : R; x2 : R; y2 : R }.

(** ** FoldingEngine.js

    [visualizeFolds] and the methods it calls only repaint the layer
    ['folds'] from [this.folds]; they change nothing the engine keeps
    and are left out. *)

Module FoldingEngine.

Local Open Scope R_scope.
Local Open Scope string_scope.

(** The members of [FOLD_TYPES]. *)
Inductive FoldType := ACCORDION | SPIRAL | CRUMPLE | DIAGONAL.

(** The [params] object of [applyFold]; an absent property is [None]. *)
Record Params := {
  param_direction : option string;
  param_numFolds : option Z;
  param_centerX : option R;
  param_centerY : option R;
  param_rotations : option Z;
  param_points : option (list Point);
  param_angle : option R
}.

Definition noParams : Params :=
  Build_Params None None None None None None None.

(** A fold object; the constructor is its [type] property. *)
Inductive Fold :=
| AccordionFold (direction : string) (numFolds : Z) (lines : list Line)
                (layerMultiplier : Z)
| SpiralFold (centerX centerY : R) (rotations : Z) (layerMultiplier : Z)
| CrumpleFold (points : list Point) (layerMultiplier : Z)
| DiagonalFold (angle : R) (layerMultiplier : Z).

Definition layerMultiplier (fold : Fold) : Z :=
  match fold with
  | AccordionFold _ _ _ m => m
  | SpiralFold _ _ _ m => m
  | CrumpleFold _ m => m
  | DiagonalFold _ m => m
  end.


Record Layer := { index : nat; opacity : R }.

(** The fields of the engine that change after construction. *)
Record State := {
  folds : list Fold;
  undoStack : list Fold;
  layers : list Layer
}.

(** The state the constructor leaves. *)
Definition initial : State :=
  {| folds := []; undoStack := []; layers := [] |}.

Inductive Event :=
| FOLD_APPLIED (fold : Fold) (layers : option (list Layer))
| FOLD_UNDONE (fold : Fold)
| FOLD_CLEARED.

(** How a method call ends: a returned boolean with the events it
    emitted, or the [RangeError] of [updateLayers] escaping. *)
Inductive Outcome :=
| Returned (value : bool) (emitted : list Event)
| Threw.

Section WithConfig.

Variable SHIRT_CONFIG : ShirtConfig.
Variable FOLD_CONFIG : FoldConfig.

Definition calculateAccordionLines (direction : string) (numFolds : Z)
  : list Line :=
  let cx := CENTER_X SHIRT_CONFIG in
  let cy := CENTER_Y SHIRT_CONFIG in
  let w := WIDTH SHIRT_CONFIG in
  let h := HEIGHT SHIRT_CONFIG in
  if String.eqb direction "horizontal" then
    let spacing := h / (IZR numFolds + 1) in
    let startY := cy - h / 2 + 80 in
    map (fun i : nat =>
           {| x1 := cx - w / 2;
              y1 := startY + spacing * INR i;
              x2 := cx + w / 2;
              y2 := startY + spacing * INR i |})
        (seq 1 (Z.to_nat numFolds))
  else
    let spacing := w / (IZR numFolds + 1) in
    let startX := cx - w / 2 in
    let startY := cy - h / 2 + 80 in
    map (fun i : nat =>
           {| x1 := startX + spacing * INR i;
              y1 := startY;
              x2 := startX + spacing * INR i;
              y2 := startY + h - 80 |})
        (seq 1 (Z.to_nat numFolds)).

Definition createAccordionFold (params : Params) : Fold :=
  let direction := JS.orString (param_direction params) "horizontal" in
  let numFolds := JS.orZ (param_numFolds params) 3 in
  AccordionFold direction numFolds
                (calculateAccordionLines direction numFolds)
                numFolds.

Definition createSpiralFold (params : Params) : Fold :=
  let centerX := JS.orR (param_centerX params) (CENTER_X SHIRT_CONFIG) in
  let centerY := JS.orR (param_centerY params) (CENTER_Y SHIRT_CONFIG) in
  let rotations := JS.orZ (param_rotations params) 2 in
  SpiralFold centerX centerY rotations (rotations * 2)%Z.

(** The i-th point takes the draws [2i] and [2i+1] of the call. *)
Definition generateRandomCrumplePoints (random : nat -> R) (count : nat)
  : list Point :=
  let cx := CENTER_X SHIRT_CONFIG in
  let cy := CENTER_Y SHIRT_CONFIG in
  let w := WIDTH SHIRT_CONFIG in
  let h := HEIGHT SHIRT_CONFIG in
  map (fun i : nat =>
         {| pt_x := cx - w / 2 + random (2 * i)%nat * w;
            pt_y := cy - h / 2 + 80 + random (2 * i + 1)%nat * (h - 80) |})
      (seq 0 count).

Definition createCrumpleFold (random : nat -> R) (params : Params)
  : Fold :=
  let points :=
    JS.orArray (param_points params)
               (generateRandomCrumplePoints random 5) in
  CrumpleFold points (JS.length points).

Definition createDiagonalFold (params : Params) : Fold :=
  let angle := JS.orR (param_angle params) 45 in
  DiagonalFold angle 2.

(** [foldType] is [None] for a value outside [FOLD_TYPES]; the
    result is [None] for [null]. *)
Definition createFold (random : nat -> R) (foldType : option FoldType)
           (params : Params) : option Fold :=
  match foldType with
  | Some ACCORDION => Some (createAccordionFold params)
  | Some SPIRAL => Some (createSpiralFold params)
  | Some CRUMPLE => Some (createCrumpleFold random params)
  | Some DIAGONAL => Some (createDiagonalFold params)
  | None => None
  end.

(** The loop of [updateLayers]. *)
Definition currentMultiplier (fs : list Fold) : Z :=
  fold_left (fun m fold => (m * layerMultiplier fold)%Z) fs 1%Z.

(** [updateLayers]: [inl] when it completes, [inr] when [Array]
    throws, which leaves [layers] at the [[]] assigned first. *)
Definition updateLayers (s : State) : State + State :=
  let s0 := {| folds := folds s; undoStack := undoStack s;
               layers := [] |} in
  match JS.Array_fill_map
          (Z.min (currentMultiplier (folds s0)) (MAX_LAYERS FOLD_CONFIG))
          (fun i => {| index := i;
                       opacity := 1 - INR i * LAYER_OPACITY_STEP FOLD_CONFIG |})
  with
  | Some ls => inl {| folds := folds s0; undoStack := undoStack s0;
                      layers := ls |}
  | None => inr s0
  end.

Definition applyFold (random : nat -> R) (s : State)
           (foldType : option FoldType) (params : Params)
  : State * Outcome :=
  if (MAX_LAYERS FOLD_CONFIG <=? JS.length (layers s))%Z then
    (s, Returned false [])
  else
    match createFold random foldType params with
    | None => (s, Returned false [])
    | Some fold =>
        let s1 := {| folds := JS.push (folds s) fold;
                     undoStack := undoStack s;
                     layers := layers s |} in
        match updateLayers s1 with
        | inl s2 =>
            (s2, Returned true [FOLD_APPLIED fold (Some (layers s2))])
        | inr s2 => (s2, Threw)
        end
    end.

Definition undo (s : State) : State * Outcome :=
  match JS.pop (folds s) with
  | None => (s, Returned false [])
  | Some (fold, rest) =>
      let s1 := {| folds := rest;
                   undoStack := JS.push (undoStack s) fold;
                   layers := layers s |} in
      match updateLayers s1 with
      | inl s2 => (s2, Returned true [FOLD_UNDONE fold])
      | inr s2 => (s2, Threw)
      end
  end.

Definition redo (s : State) : State * Outcome :=
  match JS.pop (undoStack s) with
  | None => (s, Returned false [])
  | Some (fold, rest) =>
      let s1 := {| folds := JS.push (folds s) fold;
                   undoStack := rest;
                   layers := layers s |} in
      match updateLayers s1 with
      | inl s2 => (s2, Returned true [FOLD_APPLIED fold None])
      | inr s2 => (s2, Threw)
      end
  end.

Definition clear (s : State) : State * list Event :=
  ({| folds := []; undoStack := []; layers := [] |}, [FOLD_CLEARED]).

Definition getFolds (s : State) : list Fold := folds s.

Definition getLayers (s : State) : list Layer := layers s.

(** The calls a client can make, and the states they reach. *)
Inductive Call :=
| CallApplyFold (random : nat -> R) (foldType : option FoldType)
                (params : Params)
| CallUndo
| CallRedo
| CallClear.

Definition step (s : State) (c : Call) : State :=
  match c with
  | CallApplyFold random foldType params =>
      fst (applyFold random s foldType params)
  | CallUndo => fst (undo s)
  | CallRedo => fst (redo s)
  | CallClear => fst (clear s)
  end.

Definition run (calls : list Call) : State :=
  fold_left step calls initial.

End WithConfig.

End FoldingEngine.


(** ** Canvas layers

    A layer is known by what was painted on it: the discs filled with a
    radial gradient, oldest first.  A disc is what
    [createRadialGradient(x, y, 0, x, y, radius)], the [addColorStop]
    calls and [arc(x, y, radius, 0, 2 PI); fill()] describe. *)

Module Canvas.

Record ColorStop := { offset : R; alpha : R }.

Record Disc (Color : Type) := {
  disc_x : R;
  disc_y : R;
  disc_radius : R;
  disc_color : Color;
  disc_stops : list ColorStop
}.

End Canvas.

(** ** ColorManager.js *)

Module ColorManager.

Local Open Scope R_scope.

Record Color := { r : Z; g : Z; b : Z }.

Record Cmy := { c : R; m : R; y : R }.

(** An element of the array given to [blendLayers]. *)
Record DyeLayer := { color : Color; intensity : R }.

Definition rgbToCmy (rgb : Color) : Cmy :=
  {| c := 1 - IZR (r rgb) / 255;
     m := 1 - IZR (g rgb) / 255;
     y := 1 - IZR (b rgb) / 255 |}.

Definition cmyToRgb (cmy : Cmy) : Color :=
  {| r := JS.Math_round ((1 - c cmy) * 255);
     g := JS.Math_round ((1 - m cmy) * 255);
     b := JS.Math_round ((1 - y cmy) * 255) |}.

Definition mixColors (color1 color2 : Color) (ratio : R) : Color :=
  let cmy1 := rgbToCmy color1 in
  let cmy2 := rgbToCmy color2 in
  let mixedCmy :=
    {| c := c cmy1 * (1 - ratio) + c cmy2 * ratio;
       m := m cmy1 * (1 - ratio) + m cmy2 * ratio;
       y := y cmy1 * (1 - ratio) + y cmy2 * ratio |} in
  cmyToRgb mixedCmy.

Definition blendLayers (layers : list DyeLayer) : Color :=
  match layers with
  | [] => {| r := 255; g := 255; b := 255 |}
  | [layer0] => color layer0
  | layer0 :: rest =>
      fold_left
        (fun result layer => mixColors result (color layer) (intensity layer))
        rest (color layer0)
  end.

End ColorManager.

(** ** ColorManager.js in double precision

    The conversions and the mixing of ColorManager.js once more, with
    the rounding of every arithmetic operation written out: [rnd x] is
    the double the operation returns when its exact result is [x].
    The constants 1 and 255 and the channels are doubles as they are,
    and [Math.round] returns the nearest integer of the double it is
    given. *)

Module Doubles.

Local Open Scope R_scope.

Import ColorManager(Color, Cmy).

Section WithRounding.

Variable rnd : R -> R.

Definition rgbToCmy (rgb : Color) : Cmy :=
  {| ColorManager.c := rnd (1 - rnd (IZR (ColorManager.r rgb) / 255));
     ColorManager.m := rnd (1 - rnd (IZR (ColorManager.g rgb) / 255));
     ColorManager.y := rnd (1 - rnd (IZR (ColorManager.b rgb) / 255)) |}.

Definition cmyToRgb (cmy : Cmy) : Color :=
  {| ColorManager.r :=
       JS.Math_round (rnd (rnd (1 - ColorManager.c cmy) * 255));
     ColorManager.g :=
       JS.Math_round (rnd (rnd (1 - ColorManager.m cmy) * 255));
     ColorManager.b :=
       JS.Math_round (rnd (rnd (1 - ColorManager.y cmy) * 255)) |}.

Definition mixColors (color1 color2 : Color) (ratio : R) : Color :=
  let cmy1 := rgbToCmy color1 in
  let cmy2 := rgbToCmy color2 in
  let mixedCmy :=
    {| ColorManager.c :=
         rnd (rnd (ColorManager.c cmy1 * rnd (1 - ratio)) +
              rnd (ColorManager.c cmy2 * ratio));
       ColorManager.m :=
         rnd (rnd (ColorManager.m cmy1 * rnd (1 - ratio)) +
              rnd (ColorManager.m cmy2 * ratio));
       ColorManager.y :=
         rnd (rnd (ColorManager.y cmy1 * rnd (1 - ratio)) +
              rnd (ColorManager.y cmy2 * ratio)) |} in
  cmyToRgb mixedCmy.

End WithRounding.

End Doubles.

(** ** TShirtCanvas.js: the garment geometry *)

Module TShirtCanvas.

Local Open Scope R_scope.

Record Rect := { rect_x : R; rect_y : R; width : R; height : R }.

Record Neckline := { neck_x : R; neck_y : R; neck_radius : R }.

Record Geometry := {
  body : Rect;
  neckline : Neckline;
  sleeves : list Rect
}.

Section WithConfig.

Variable SHIRT_CONFIG : ShirtConfig.

Definition createShirtGeometry : Geometry :=
  let cx := CENTER_X SHIRT_CONFIG in
  let cy := CENTER_Y SHIRT_CONFIG in
  let w := WIDTH SHIRT_CONFIG in
  let h := HEIGHT SHIRT_CONFIG in
  {| body := {| rect_x := cx - w / 2; rect_y := cy - h / 2 + 80;
                width := w; height := h - 80 |};
     neckline := {| neck_x := cx; neck_y := cy - h / 2 + 80;
                    neck_radius := 40 |};
     sleeves := [ {| rect_x := cx - w / 2; rect_y := cy - h / 2 + 100;
                     width := -80; height := 120 |};
                  {| rect_x := cx + w / 2; rect_y := cy - h / 2 + 100;
                     width := 80; height := 120 |} ] |}.

Definition isPointOnShirt (x y : R) : bool :=
  let geometry := createShirtGeometry in
  let body := body geometry in
  if JS.geb x (rect_x body) && JS.leb x (rect_x body + width body) &&
     JS.geb y (rect_y body) && JS.leb y (rect_y body + height body)
  then true
  else
    existsb
      (fun sleeve =>
         let sleeveRight := rect_x sleeve + width sleeve in
         let sleeveBottom := rect_y sleeve + height sleeve in
         ((JS.gtb (width sleeve) 0 && JS.geb x (rect_x sleeve) &&
           JS.leb x sleeveRight) ||
          (JS.ltb (width sleeve) 0 && JS.leb x (rect_x sleeve) &&
           JS.geb x sleeveRight)) &&
         JS.geb y (rect_y sleeve) && JS.leb y sleeveBottom)
      (sleeves geometry).

End WithConfig.

End TShirtCanvas.

(** ** DyePhysics.js *)

Module DyePhysics.

Local Open Scope R_scope.

Import ColorManager(Color).

Record DyePoint := {
  x : R;
  y : R;
  color : Color;
  intensity : R;
  radius : R;
  layerCount : Z;
  timestamp : Z
}.

Record BleedPoint := { bleed_x : R; bleed_y : R; bleed_color : Color }.

(** [dyeLayer] is what the module has painted on the canvas layer
    ['dye'] since it was last cleared. *)
Record State := {
  dyePoints : list DyePoint;
  isApplying : bool;
  currentBrushSize : R;
  currentIntensity : R;
  dyeLayer : list (Canvas.Disc Color)
}.

(** What a call reads from its collaborators: the colour manager's
    current colour, the folding engine's [getLayers()], [Date.now()]
    and the results of the [Math.random()] calls it makes. *)
Record Env := {
  currentColor : Color;
  engineLayers : list FoldingEngine.Layer;
  now : Z;
  random : nat -> R
}.

Inductive Event :=
| DYE_APPLIED (dyePoint : DyePoint)
| DYE_CLEARED.

Section WithConfig.

Variable SHIRT_CONFIG : ShirtConfig.
Variable DYE_CONFIG : DyeConfig.
Variable distance : R -> R -> R -> R -> R.

(** The state the constructor leaves. *)
Definition initial : State :=
  {| dyePoints := [];
     isApplying := false;
     currentBrushSize := BRUSH_DEFAULT_SIZE DYE_CONFIG;
     currentIntensity := DEFAULT_INTENSITY DYE_CONFIG;
     dyeLayer := [] |}.

Definition setBrushSize (s : State) (size : R) : State :=
  {| dyePoints := dyePoints s;
     isApplying := isApplying s;
     currentBrushSize :=
       Rmax (BRUSH_MIN_SIZE DYE_CONFIG)
            (Rmin size (BRUSH_MAX_SIZE DYE_CONFIG));
     currentIntensity := currentIntensity s;
     dyeLayer := dyeLayer s |}.

Definition setIntensity (s : State) (intensity : R) : State :=
  {| dyePoints := dyePoints s;
     isApplying := isApplying s;
     currentBrushSize := currentBrushSize s;
     currentIntensity :=
       Rmax (MIN_INTENSITY DYE_CONFIG)
            (Rmin intensity (MAX_INTENSITY DYE_CONFIG));
     dyeLayer := dyeLayer s |}.

(** The local [effectiveIntensity] of [renderDyePoint]. *)
Definition effectiveIntensity (dyePoint : DyePoint) : R :=
  intensity dyePoint / sqrt (IZR (layerCount dyePoint)).

Definition renderDyePoint (dyePoint : DyePoint) : Canvas.Disc Color :=
  let alpha := (effectiveIntensity dyePoint / 100) * 0.8 in
  {| Canvas.disc_x := x dyePoint;
     Canvas.disc_y := y dyePoint;
     Canvas.disc_radius := radius dyePoint;
     Canvas.disc_color := color dyePoint;
     Canvas.disc_stops :=
       [ {| Canvas.offset := 0; Canvas.alpha := alpha |};
         {| Canvas.offset := 0.7; Canvas.alpha := alpha * 0.5 |};
         {| Canvas.offset := 1; Canvas.alpha := 0 |} ] |}.

Definition generateBleedPoints (random : nat -> R) (centerPoint : DyePoint)
           (radius : R) : list BleedPoint :=
  let count := 8%nat in
  map (fun i : nat =>
         let angle := (INR i / INR count) * PI * 2 in
         let distance := radius * (0.5 + random i * 0.5) in
         {| bleed_x := x centerPoint + cos angle * distance;
            bleed_y := y centerPoint + sin angle * distance;
            bleed_color := color centerPoint |})
      (seq 0 count).

Definition renderBleedPoint (s : State) (point : BleedPoint) (intensity : R)
  : Canvas.Disc Color :=
  let alpha := (intensity / 100) * 0.3 in
  let radius := currentBrushSize s * 0.5 in
  {| Canvas.disc_x := bleed_x point;
     Canvas.disc_y := bleed_y point;
     Canvas.disc_radius := radius;
     Canvas.disc_color := bleed_color point;
     Canvas.disc_stops :=
       [ {| Canvas.offset := 0; Canvas.alpha := alpha |};
         {| Canvas.offset := 1; Canvas.alpha := 0 |} ] |}.

(** The discs [simulateBleed] paints. *)
Definition simulateBleed (random : nat -> R) (s : State) (dyePoint : DyePoint)
  : list (Canvas.Disc Color) :=
  let bleedRadius := radius dyePoint * BLEED_RATE DYE_CONFIG in
  let bleedIntensity := intensity dyePoint * ABSORPTION_RATE DYE_CONFIG in
  if JS.ltb bleedIntensity 5 then []
  else
    let bleedPoints := generateBleedPoints random dyePoint bleedRadius in
    map (fun point => renderBleedPoint s point bleedIntensity) bleedPoints.

Definition applyDye (env : Env) (s : State) (x y : R)
  : State * list Event :=
  let color := currentColor env in
  let layers := engineLayers env in
  let layerCount := Z.max 1 (JS.length layers) in
  let dyePoint :=
    {| x := x; y := y; color := color;
       intensity := currentIntensity s;
       radius := currentBrushSize s;
       layerCount := layerCount;
       timestamp := now env |} in
  ({| dyePoints := JS.push (dyePoints s) dyePoint;
      isApplying := isApplying s;
      currentBrushSize := currentBrushSize s;
      currentIntensity := currentIntensity s;
      dyeLayer :=
        dyeLayer s ++ [renderDyePoint dyePoint]
                   ++ simulateBleed (random env) s dyePoint |},
   [DYE_APPLIED dyePoint]).

Definition startApplying (env : Env) (s : State) (x y : R)
  : State * list Event :=
  if negb (TShirtCanvas.isPointOnShirt SHIRT_CONFIG x y) then (s, [])
  else
    applyDye env
             {| dyePoints := dyePoints s;
                isApplying := true;
                currentBrushSize := currentBrushSize s;
                currentIntensity := currentIntensity s;
                dyeLayer := dyeLayer s |}
             x y.

Definition continueApplying (env : Env) (s : State) (x y : R)
  : State * list Event :=
  if negb (isApplying s) || negb (TShirtCanvas.isPointOnShirt SHIRT_CONFIG x y)
  then (s, [])
  else applyDye env s x y.

Definition stopApplying (s : State) : State :=
  {| dyePoints := dyePoints s;
     isApplying := false;
     currentBrushSize := currentBrushSize s;
     currentIntensity := currentIntensity s;
     dyeLayer := dyeLayer s |}.

Definition calculateIntensityAtPoint (x0 y0 : R) (dyePoint : DyePoint) : R :=
  let dist := distance x0 y0 (x dyePoint) (y dyePoint) in
  let normalizedDist := dist / radius dyePoint in
  intensity dyePoint * Rmax 0 (1 - normalizedDist).

Definition mixDyesAtPoint (s : State) (x0 y0 : R) : Color :=
  let affectingDyes :=
    filter (fun point =>
              let dist := distance x0 y0 (x point) (y point) in
              JS.leb dist (radius point))
           (dyePoints s) in
  if (JS.length affectingDyes =? 0)%Z then
    {| ColorManager.r := 255; ColorManager.g := 255; ColorManager.b := 255 |}
  else
    let layers :=
      map (fun point =>
             {| ColorManager.color := color point;
                ColorManager.intensity :=
                  calculateIntensityAtPoint x0 y0 point |})
          affectingDyes in
    ColorManager.blendLayers layers.

Definition clear (s : State) : State * list Event :=
  ({| dyePoints := [];
      isApplying := isApplying s;
      currentBrushSize := currentBrushSize s;
      currentIntensity := currentIntensity s;
      dyeLayer := [] |},
   [DYE_CLEARED]).

Definition getDyePoints (s : State) : list DyePoint := dyePoints s.

(** The calls a client can make, and the states they reach. *)
Inductive Call :=
| CallSetBrushSize (size : R)
| CallSetIntensity (intensity : R)
| CallStartApplying (env : Env) (x y : R)
| CallContinueApplying (env : Env) (x y : R)
| CallStopApplying
| CallClear.

Definition step (s : State) (call : Call) : State :=
  match call with
  | CallSetBrushSize size => setBrushSize s size
  | CallSetIntensity intensity => setIntensity s intensity
  | CallStartApplying env x y => fst (startApplying env s x y)
  | CallContinueApplying env x y => fst (continueApplying env s x y)
  | CallStopApplying => stopApplying s
  | CallClear => fst (clear s)
  end.

Definition run (calls : list Call) : State :=
  fold_left step calls initial.

End WithConfig.

End DyePhysics.


(** ** PatternGenerator.js *)

Module PatternGenerator.

Local Open Scope R_scope.
Local Open Scope string_scope.

Import ColorManager(Color).
Import FoldingEngine(Fold, AccordionFold, SpiralFold, CrumpleFold,
                     DiagonalFold).
Import DyePhysics(DyePoint).

(** The layer ['final'] and the number of [Math.random()] calls made so
    far, threaded through the unfolding. *)
Record Ctx := {
  finalLayer : list (Canvas.Disc Color);
  randomCalls : nat
}.

Definition M (A : Type) : Type := Ctx -> A * Ctx.

Definition ret {A} (a : A) : M A := fun ctx => (a, ctx).

Definition bind {A B} (ma : M A) (f : A -> M B) : M B :=
  fun ctx => let (a, ctx') := ma ctx in f a ctx'.

Notation "x <- ma ;; mb" := (bind ma (fun x => mb))
  (at level 61, ma at next level, right associativity).
Notation "ma ;; mb" := (bind ma (fun _ => mb))
  (at level 61, right associativity).

(** [array.forEach(f)]. *)
Fixpoint forEach {A} (f : A -> M unit) (array : list A) : M unit :=
  match array with
  | [] => ret tt
  | a :: rest => f a ;; forEach f rest
  end.

(** [for (let i = 0; i < n; i++) f(i)]. *)
Definition forUpTo (n : nat) (f : nat -> M unit) : M unit :=
  forEach f (seq 0 n).

(** [ctx.clearRect] over the whole layer. *)
Definition clearRect : M unit :=
  fun ctx => (tt, {| finalLayer := []; randomCalls := randomCalls ctx |}).

(** [ctx.fill()] of one gradient disc. *)
Definition fill (disc : Canvas.Disc Color) : M unit :=
  fun ctx => (tt, {| finalLayer := finalLayer ctx ++ [disc];
                     randomCalls := randomCalls ctx |}).

(** What [generateCrumpleVariations] collects. *)
Record Variation := {
  var_x : R;
  var_y : R;
  var_color : Color;
  var_intensity : R;
  var_radius : R
}.

Inductive Event := UNFOLD_START | UNFOLD_COMPLETE.

Section WithConfig.

Variable SHIRT_CONFIG : ShirtConfig.
Variable random : nat -> R.

(** [Math.random()]. *)
Definition Math_random : M R :=
  fun ctx => (random (randomCalls ctx),
              {| finalLayer := finalLayer ctx;
                 randomCalls := S (randomCalls ctx) |}).

Definition renderFinalPoint (x y : R) (color : Color) (intensity radius : R)
  : M unit :=
  let alpha := (intensity / 100) * 0.6 in
  fill {| Canvas.disc_x := x;
          Canvas.disc_y := y;
          Canvas.disc_radius := radius;
          Canvas.disc_color := color;
          Canvas.disc_stops :=
            [ {| Canvas.offset := 0; Canvas.alpha := alpha |};
              {| Canvas.offset := 0.7; Canvas.alpha := alpha * 0.5 |};
              {| Canvas.offset := 1; Canvas.alpha := 0 |} ] |}.

Definition mirrorPoint (x y : R) (line : Line) (direction : string)
  : Point :=
  if String.eqb direction "horizontal" then
    let dy := y1 line - y in
    {| pt_x := x; pt_y := y1 line + dy |}
  else
    let dx := x1 line - x in
    {| pt_x := x1 line + dx; pt_y := y |}.

Definition renderPointWithSymmetry (point : DyePoint) (lines : list Line)
           (direction : string) : M unit :=
  let x := DyePhysics.x point in
  let y := DyePhysics.y point in
  let color := DyePhysics.color point in
  let intensity := DyePhysics.intensity point in
  let radius := DyePhysics.radius point in
  renderFinalPoint x y color intensity radius ;;
  forEach (fun line =>
             let mirrored := mirrorPoint x y line direction in
             renderFinalPoint (pt_x mirrored) (pt_y mirrored) color
                              intensity radius)
          lines.

Definition unfoldAccordion (direction : string) (lines : list Line)
           (dyePoints : list DyePoint) : M unit :=
  forEach (fun point => renderPointWithSymmetry point lines direction)
          dyePoints.

Definition rotatePoint (x y centerX centerY angle : R) : Point :=
  let dx := x - centerX in
  let dy := y - centerY in
  {| pt_x := centerX + dx * cos angle - dy * sin angle;
     pt_y := centerY + dx * sin angle + dy * cos angle |}.

Definition unfoldSpiral (centerX centerY : R) (rotations : Z)
           (dyePoints : list DyePoint) : M unit :=
  forEach (fun point =>
             forUpTo (Z.to_nat (rotations * 4))
                     (fun i =>
                        let angle :=
                          (INR i / IZR (rotations * 4)) * PI * 2 in
                        let rotated :=
                          rotatePoint (DyePhysics.x point)
                                      (DyePhysics.y point)
                                      centerX centerY angle in
                        renderFinalPoint (pt_x rotated) (pt_y rotated)
                                         (DyePhysics.color point)
                                         (DyePhysics.intensity point)
                                         (DyePhysics.radius point)))
          dyePoints.

(** The loop of [generateCrumpleVariations], pushing onto
    [variations]. *)
Fixpoint crumpleCopies (point : DyePoint) (crumplePoints : list Point)
         (variations : list Variation) : M (list Variation) :=
  match crumplePoints with
  | [] => ret variations
  | _ :: rest =>
      rx <- Math_random ;;
      ry <- Math_random ;;
      let offset := {| pt_x := (rx - 0.5) * 40; pt_y := (ry - 0.5) * 40 |} in
      crumpleCopies point rest
        (JS.push variations
                 {| var_x := DyePhysics.x point + pt_x offset;
                    var_y := DyePhysics.y point + pt_y offset;
                    var_color := DyePhysics.color point;
                    var_intensity := DyePhysics.intensity point;
                    var_radius := DyePhysics.radius point |})
  end.

Definition generateCrumpleVariations (point : DyePoint)
           (crumplePoints : list Point) : M (list Variation) :=
  let variations :=
    [ {| var_x := DyePhysics.x point;
         var_y := DyePhysics.y point;
         var_color := DyePhysics.color point;
         var_intensity := DyePhysics.intensity point;
         var_radius := DyePhysics.radius point |} ] in
  crumpleCopies point crumplePoints variations.

Definition unfoldCrumple (points : list Point) (dyePoints : list DyePoint)
  : M unit :=
  forEach (fun point =>
             variations <- generateCrumpleVariations point points ;;
             forEach (fun varied =>
                        renderFinalPoint (var_x varied) (var_y varied)
                                         (DyePhysics.color point)
                                         (DyePhysics.intensity point * 0.7)
                                         (DyePhysics.radius point))
                     variations)
          dyePoints.

Definition mirrorDiagonal (x y centerX centerY angle : R) : Point :=
  let rad := (angle * PI) / 180 in
  let dx := x - centerX in
  let dy := y - centerY in
  let cos2 := cos (2 * rad) in
  let sin2 := sin (2 * rad) in
  {| pt_x := centerX + dx * cos2 + dy * sin2;
     pt_y := centerY + dx * sin2 - dy * cos2 |}.

Definition unfoldDiagonal (angle : R) (dyePoints : list DyePoint) : M unit :=
  forEach (fun point =>
             renderFinalPoint (DyePhysics.x point) (DyePhysics.y point)
                              (DyePhysics.color point)
                              (DyePhysics.intensity point)
                              (DyePhysics.radius point) ;;
             let mirrored :=
               mirrorDiagonal (DyePhysics.x point) (DyePhysics.y point)
                              (CENTER_X SHIRT_CONFIG) (CENTER_Y SHIRT_CONFIG)
                              angle in
             renderFinalPoint (pt_x mirrored) (pt_y mirrored)
                              (DyePhysics.color point)
                              (DyePhysics.intensity point)
                              (DyePhysics.radius point))
          dyePoints.

(** The pacing delay that ends the method paints nothing and is left
    out. *)
Definition applyUnfoldTransform (fold : Fold) (dyePoints : list DyePoint)
  : M unit :=
  match fold with
  | AccordionFold direction _ lines _ =>
      unfoldAccordion direction lines dyePoints
  | SpiralFold centerX centerY rotations _ =>
      unfoldSpiral centerX centerY rotations dyePoints
  | CrumpleFold points _ => unfoldCrumple points dyePoints
  | DiagonalFold angle _ => unfoldDiagonal angle dyePoints
  end.

(** [for (let i = n - 1; i >= 0; i--) { fold = folds[i]; ... }].  Every
    index read lies below [folds.length]. *)
Fixpoint unfoldLoop (n : nat) (folds : list Fold)
         (dyePoints : list DyePoint) : M unit :=
  match n with
  | O => ret tt
  | S i =>
      match nth_error folds i with
      | Some fold => applyUnfoldTransform fold dyePoints
      | None => ret tt
      end ;;
      unfoldLoop i folds dyePoints
  end.

Definition unfoldPattern (folds : list Fold) (dyePoints : list DyePoint)
  : M unit :=
  clearRect ;;
  unfoldLoop (List.length folds) folds dyePoints.

(** [ctx.clearRect(...); ctx.drawImage(dyeLayer, 0, 0)]. *)
Definition copyDyeToFinal (dyeLayer : list (Canvas.Disc Color)) : M unit :=
  clearRect ;;
  forEach fill dyeLayer.

Definition generatePattern (folds : list Fold) (dyePoints : list DyePoint)
           (dyeLayer : list (Canvas.Disc Color)) : M (list Event) :=
  if (JS.length folds =? 0)%Z then
    copyDyeToFinal dyeLayer ;;
    ret [UNFOLD_START; UNFOLD_COMPLETE]
  else
    unfoldPattern folds dyePoints ;;
    ret [UNFOLD_START; UNFOLD_COMPLETE].

End WithConfig.

End PatternGenerator.


(** ** UIController.js

    The controller's own state and the modules it drives, with the
    handlers its listeners call.  A canvas event carries the canvas
    point [getCanvasPoint] computed for it, together with the clock
    reading and the random numbers the dye model will ask for; a colour
    input carries what [hexToRgb] parsed ([None] for an unparsable
    value).  The DOM updates of [updatePhaseDisplay], the [unfold] and
    [save] buttons and the canvas calls of [reset] are left out. *)

Module UIController.

Local Open Scope R_scope.
Local Open Scope string_scope.

Import ColorManager(Color).

(** The members of [PHASES]. *)
Inductive Phase := FOLD | DYE | UNFOLD.

Record State := {
  currentPhase : Phase;
  selectedFoldType : option (option FoldingEngine.FoldType);
  foldingEngine : FoldingEngine.State;
  dyePhysics : DyePhysics.State;
  currentColor : Color
}.

Section WithConfig.

Variable SHIRT_CONFIG : ShirtConfig.
Variable FOLD_CONFIG : FoldConfig.
Variable DYE_CONFIG : DyeConfig.

(** The state after the constructors of main.js have run. *)
Definition initial : State :=
  {| currentPhase := FOLD;
     selectedFoldType := None;
     foldingEngine := FoldingEngine.initial;
     dyePhysics := DyePhysics.initial DYE_CONFIG;
     currentColor :=
       {| ColorManager.r := 255; ColorManager.g := 0; ColorManager.b := 0 |} |}.

Definition getFoldParameters (foldType : option FoldingEngine.FoldType)
  : FoldingEngine.Params :=
  match foldType with
  | Some FoldingEngine.ACCORDION =>
      {| FoldingEngine.param_direction := Some "horizontal";
         FoldingEngine.param_numFolds := Some 3%Z;
         FoldingEngine.param_centerX := None;
         FoldingEngine.param_centerY := None;
         FoldingEngine.param_rotations := None;
         FoldingEngine.param_points := None;
         FoldingEngine.param_angle := None |}
  | Some FoldingEngine.SPIRAL =>
      {| FoldingEngine.param_direction := None;
         FoldingEngine.param_numFolds := None;
         FoldingEngine.param_centerX := None;
         FoldingEngine.param_centerY := None;
         FoldingEngine.param_rotations := Some 2%Z;
         FoldingEngine.param_points := None;
         FoldingEngine.param_angle := None |}
  | Some FoldingEngine.CRUMPLE => FoldingEngine.noParams
  | Some FoldingEngine.DIAGONAL =>
      {| FoldingEngine.param_direction := None;
         FoldingEngine.param_numFolds := None;
         FoldingEngine.param_centerX := None;
         FoldingEngine.param_centerY := None;
         FoldingEngine.param_rotations := None;
         FoldingEngine.param_points := None;
         FoldingEngine.param_angle := Some 45 |}
  | None => FoldingEngine.noParams
  end.

Definition withEngine (s : State) (engine : FoldingEngine.State) : State :=
  {| currentPhase := currentPhase s;
     selectedFoldType := selectedFoldType s;
     foldingEngine := engine;
     dyePhysics := dyePhysics s;
     currentColor := currentColor s |}.

Definition withDye (s : State) (dye : DyePhysics.State) : State :=
  {| currentPhase := currentPhase s;
     selectedFoldType := selectedFoldType s;
     foldingEngine := foldingEngine s;
     dyePhysics := dye;
     currentColor := currentColor s |}.

Definition withPhase (s : State) (phase : Phase) : State :=
  {| currentPhase := phase;
     selectedFoldType := selectedFoldType s;
     foldingEngine := foldingEngine s;
     dyePhysics := dyePhysics s;
     currentColor := currentColor s |}.

Definition applyFold (random : nat -> R) (s : State)
           (foldType : option FoldingEngine.FoldType) : State :=
  let params := getFoldParameters foldType in
  withEngine s
    (fst (FoldingEngine.applyFold SHIRT_CONFIG FOLD_CONFIG random
                                  (foldingEngine s) foldType params)).

(** The listener of the buttons carrying [data-fold]. *)
Definition clickFold (random : nat -> R) (s : State)
           (dataset : option FoldingEngine.FoldType) : State :=
  applyFold random
            {| currentPhase := currentPhase s;
               selectedFoldType := Some dataset;
               foldingEngine := foldingEngine s;
               dyePhysics := dyePhysics s;
               currentColor := currentColor s |}
            dataset.

(** What the dye model reads from the other modules during a call. *)
Definition dyeEnv (s : State) (now : Z) (random : nat -> R)
  : DyePhysics.Env :=
  {| DyePhysics.currentColor := currentColor s;
     DyePhysics.engineLayers := FoldingEngine.getLayers (foldingEngine s);
     DyePhysics.now := now;
     DyePhysics.random := random |}.

Definition handleCanvasMouseDown (now : Z) (random : nat -> R) (s : State)
           (point : Point) : State :=
  match currentPhase s with
  | DYE =>
      withDye s
        (fst (DyePhysics.startApplying SHIRT_CONFIG DYE_CONFIG
                (dyeEnv s now random) (dyePhysics s)
                (pt_x point) (pt_y point)))
  | _ => s
  end.

Definition handleCanvasMouseMove (now : Z) (random : nat -> R) (s : State)
           (point : Point) : State :=
  match currentPhase s with
  | DYE =>
      withDye s
        (fst (DyePhysics.continueApplying SHIRT_CONFIG DYE_CONFIG
                (dyeEnv s now random) (dyePhysics s)
                (pt_x point) (pt_y point)))
  | _ => s
  end.

Definition handleCanvasMouseUp (s : State) : State :=
  match currentPhase s with
  | DYE => withDye s (DyePhysics.stopApplying (dyePhysics s))
  | _ => s
  end.

(** [colorManager.setColor(hex)], given [hexToRgb(hex)]. *)
Definition setColor (s : State) (rgb : option Color) : State :=
  match rgb with
  | Some color =>
      {| currentPhase := currentPhase s;
         selectedFoldType := selectedFoldType s;
         foldingEngine := foldingEngine s;
         dyePhysics := dyePhysics s;
         currentColor := color |}
  | None => s
  end.

Definition nextPhase (s : State) : State :=
  match currentPhase s with
  | FOLD => withPhase s DYE
  | DYE => withPhase s UNFOLD
  | UNFOLD => s
  end.

Definition previousPhase (s : State) : State :=
  match currentPhase s with
  | DYE => withPhase s FOLD
  | UNFOLD => withPhase s DYE
  | FOLD => s
  end.

Definition reset (s : State) : State :=
  {| currentPhase := FOLD;
     selectedFoldType := selectedFoldType s;
     foldingEngine := fst (FoldingEngine.clear (foldingEngine s));
     dyePhysics := fst (DyePhysics.clear (dyePhysics s));
     currentColor := currentColor s |}.

(** The events the listeners of [attachEventListeners] react to. *)
Inductive UIEvent :=
| ClickFold (random : nat -> R) (dataset : option FoldingEngine.FoldType)
| ClickUndo
| ClickRedo
| ClickClearFolds
| InputColor (rgb : option Color)
| InputIntensity (value : R)
| InputBrushSize (value : R)
| ClickClearDye
| MouseDown (now : Z) (random : nat -> R) (point : Point)
| MouseMove (now : Z) (random : nat -> R) (point : Point)
| MouseUp
| MouseLeave
| ClickPrevPhase
| ClickNextPhase
| ClickReset.

Definition handle (s : State) (event : UIEvent) : State :=
  match event with
  | ClickFold random dataset => clickFold random s dataset
  | ClickUndo =>
      withEngine s (fst (FoldingEngine.undo FOLD_CONFIG (foldingEngine s)))
  | ClickRedo =>
      withEngine s (fst (FoldingEngine.redo FOLD_CONFIG (foldingEngine s)))
  | ClickClearFolds =>
      withEngine s (fst (FoldingEngine.clear (foldingEngine s)))
  | InputColor rgb => setColor s rgb
  | InputIntensity value =>
      withDye s (DyePhysics.setIntensity DYE_CONFIG (dyePhysics s) value)
  | InputBrushSize value =>
      withDye s (DyePhysics.setBrushSize DYE_CONFIG (dyePhysics s) value)
  | ClickClearDye => withDye s (fst (DyePhysics.clear (dyePhysics s)))
  | MouseDown now random point => handleCanvasMouseDown now random s point
  | MouseMove now random point => handleCanvasMouseMove now random s point
  | MouseUp => handleCanvasMouseUp s
  | MouseLeave => handleCanvasMouseUp s
  | ClickPrevPhase => previousPhase s
  | ClickNextPhase => nextPhase s
  | ClickReset => reset s
  end.

Definition run (events : list UIEvent) : State :=
  fold_left handle events initial.

End WithConfig.

End UIController.

(** ** utils.js *)

Module Utils.

Local Open Scope R_scope.

(** Modelled from the spec: utils.js is not among the sources; its
    [distance(x1, y1, x2, y2)] is the distance between the points
    [(x1, y1)] and [(x2, y2)] of the plane the specification's
    "distance" from a query position to a dye point refers to.  The
    properties below hold for every distance function and use this one
    only in their concrete instances. *)
Definition distance (xa ya xb yb : R) : R :=
  sqrt ((xb - xa) * (xb - xa) + (yb - ya) * (yb - ya)).

End Utils.

(** ** Notions of the specification *)

Module Spec.

Local Open Scope R_scope.

Import ColorManager(Color).

(** The layer sequence [updateLayers] derives from a fold stack: empty
    when [Array] throws. *)
Definition derivedLayers (FOLD_CONFIG : FoldConfig)
           (folds : list FoldingEngine.Fold) : list FoldingEngine.Layer :=
  match FoldingEngine.updateLayers FOLD_CONFIG
          {| FoldingEngine.folds := folds;
             FoldingEngine.undoStack := [];
             FoldingEngine.layers := [] |}
  with
  | inl s => FoldingEngine.layers s
  | inr s => FoldingEngine.layers s
  end.

(** In every state the engine reaches, the layers are those derived
    from the fold stack, or both are empty (as the constructor and
    [clear] leave them). *)
Definition consistent (FOLD_CONFIG : FoldConfig) (s : FoldingEngine.State)
  : Prop :=
  FoldingEngine.layers s = derivedLayers FOLD_CONFIG (FoldingEngine.folds s) \/
  (FoldingEngine.folds s = [] /\ FoldingEngine.layers s = []).

(** The product of the layer multipliers of a stack, clamped to the
    cap. *)
Definition clampedProduct (FOLD_CONFIG : FoldConfig)
           (folds : list FoldingEngine.Fold) : Z :=
  Z.min (fold_right (fun fold m => (FoldingEngine.layerMultiplier fold * m)%Z)
                    1%Z folds)
        (MAX_LAYERS FOLD_CONFIG).

(** The layer count a dye application snapshots from the engine. *)
Definition snapshotLayerCount (s : FoldingEngine.State) : Z :=
  Z.max 1 (JS.length (FoldingEngine.getLayers s)).

(** White, the colour of undyed cloth. *)
Definition white : Color :=
  {| ColorManager.r := 255; ColorManager.g := 255; ColorManager.b := 255 |}.


(** The recorded dye points that cover a position, in recorded order. *)
Definition covering (distance : R -> R -> R -> R -> R) (x0 y0 : R)
           (dyePoints : list DyePhysics.DyePoint)
  : list DyePhysics.DyePoint :=
  filter (fun p =>
            if Rle_dec (distance x0 y0 (DyePhysics.x p) (DyePhysics.y p))
                       (DyePhysics.radius p)
            then true else false)
         dyePoints.

(** The specification's rule of subtractive mixing, channel by
    channel: a channel [v] is [1 - v / 255] in complement space, two
    complements are interpolated linearly by the mix ratio, and a
    complement [c] goes back to the channel [round ((1 - c) * 255)]. *)
Definition toComplement (channel : Z) : R := 1 - IZR channel / 255.






(** An RGB colour: every channel an integer from 0 to 255. *)
Definition validColor (a : Color) : Prop :=
  (0 <= ColorManager.r a <= 255)%Z /\
  (0 <= ColorManager.g a <= 255)%Z /\
  (0 <= ColorManager.b a <= 255)%Z.

(** Two colours agree within [tolerance] on every channel. *)
Definition channelsWithin (tolerance : Z) (a b : Color) : Prop :=
  (Z.abs (ColorManager.r a - ColorManager.r b) <= tolerance)%Z /\
  (Z.abs (ColorManager.g a - ColorManager.g b) <= tolerance)%Z /\
  (Z.abs (ColorManager.b a - ColorManager.b b) <= tolerance)%Z.

(** The rounding [rnd] returns, for every exact result between -512 and
    512, a number within [eps] of it.  Rounding to the nearest double
    does so with [eps] = 2^-44: below 512 neighbouring doubles are at
    most 2^-44 apart, and the nearest one is at most half of that
    away. *)
Definition roundsWithin (rnd : R -> R) (eps : R) : Prop :=
  forall x, -512 <= x <= 512 -> x - eps <= rnd x <= x + eps.



(** A step of the unfolding paints nothing and returns [n] values. *)
Definition collects {A} (m : PatternGenerator.M (list A)) (n : nat) : Prop :=
  forall ctx,
    PatternGenerator.finalLayer (snd (m ctx)) =
    PatternGenerator.finalLayer ctx /\
    List.length (fst (m ctx)) = n.

(** The centre alpha of a painted disc: the alpha of its first colour
    stop. *)
Definition centreAlpha (disc : Canvas.Disc Color) : option R :=
  match Canvas.disc_stops disc with
  | stop :: _ => Some (Canvas.alpha stop)
  | [] => None
  end.

(** The printable body of the garment, its top-left corner and its
    extent. *)
Definition body (SHIRT_CONFIG : ShirtConfig) : TShirtCanvas.Rect :=
  TShirtCanvas.body (TShirtCanvas.createShirtGeometry SHIRT_CONFIG).

Definition bodyLeft (SHIRT_CONFIG : ShirtConfig) : R :=
  TShirtCanvas.rect_x (body SHIRT_CONFIG).

Definition bodyTop (SHIRT_CONFIG : ShirtConfig) : R :=
  TShirtCanvas.rect_y (body SHIRT_CONFIG).

Definition bodyWidth (SHIRT_CONFIG : ShirtConfig) : R :=
  TShirtCanvas.width (body SHIRT_CONFIG).

Definition bodyHeight (SHIRT_CONFIG : ShirtConfig) : R :=
  TShirtCanvas.height (body SHIRT_CONFIG).

(** What a dye application reads when the folding engine is in state
    [engine]. *)
Definition envOf (engine : FoldingEngine.State) (color : Color) (now : Z)
           (random : nat -> R) : DyePhysics.Env :=
  {| DyePhysics.currentColor := color;
     DyePhysics.engineLayers := FoldingEngine.getLayers engine;
     DyePhysics.now := now;
     DyePhysics.random := random |}.

(** A step of the unfolding paints only discs with property [P]: if
    the final layer held only such discs before, it does after. *)
Definition paintsOnly {A} (P : Canvas.Disc Color -> Prop)
           (m : PatternGenerator.M A) : Prop :=
  forall ctx,
    Forall P (PatternGenerator.finalLayer ctx) ->
    Forall P (PatternGenerator.finalLayer (snd (m ctx))).

(** A step of the unfolding calls [Math.random()] [k] times. *)
Definition draws {A} (m : PatternGenerator.M A) (k : nat) : Prop :=
  forall ctx,
    PatternGenerator.randomCalls (snd (m ctx)) =
    (PatternGenerator.randomCalls ctx + k)%nat.

(** A disc of the final layer that renders one of the dye points: it
    has the point's colour and radius, and at its centre the alpha of
    60% of the point's intensity, or of 60% of 0.7 times it. *)
Definition rendersOneOf (dyePoints : list DyePhysics.DyePoint)
           (disc : Canvas.Disc Color) : Prop :=
  exists p,
    In p dyePoints /\
    Canvas.disc_color disc = DyePhysics.color p /\
    Canvas.disc_radius disc = DyePhysics.radius p /\
    (centreAlpha disc = Some (DyePhysics.intensity p / 100 * 0.6) \/
     centreAlpha disc = Some (DyePhysics.intensity p * 0.7 / 100 * 0.6)).

(** The number of [Math.random()] calls the unfolding of one fold makes
    per dye point. *)
Definition randomCallsPerPoint (fold : FoldingEngine.Fold) : nat :=
  match fold with
  | FoldingEngine.CrumpleFold points _ => 2 * List.length points
  | _ => 0
  end.

End Spec.

(** ** A concrete configuration and concrete inputs *)

Module Sample.

Local Open Scope R_scope.
Local Open Scope string_scope.

Definition shirt : ShirtConfig :=
  {| CENTER_X := 400; CENTER_Y := 300; WIDTH := 300; HEIGHT := 400 |}.

Definition foldConfig : FoldConfig :=
  {| MAX_LAYERS := 8; LAYER_OPACITY_STEP := / 10 |}.

Definition dyeConfig : DyeConfig :=
  {| BRUSH_MIN_SIZE := 5; BRUSH_MAX_SIZE := 100; BRUSH_DEFAULT_SIZE := 30;
     MIN_INTENSITY := 0; MAX_INTENSITY := 100; DEFAULT_INTENSITY := 80;
     BLEED_RATE := / 2; ABSORPTION_RATE := / 2 |}.

(** A [Math.random()] that always answers one half. *)
Definition random (k : nat) : R := / 2.

Definition red : ColorManager.Color :=
  {| ColorManager.r := 255; ColorManager.g := 0; ColorManager.b := 0 |}.

Definition blue : ColorManager.Color :=
  {| ColorManager.r := 0; ColorManager.g := 0; ColorManager.b := 255 |}.

(** The parameters the user interface sends for each fold family. *)
Definition accordionParams (direction : string) (numFolds : Z)
  : FoldingEngine.Params :=
  {| FoldingEngine.param_direction := Some direction;
     FoldingEngine.param_numFolds := Some numFolds;
     FoldingEngine.param_centerX := None;
     FoldingEngine.param_centerY := None;
     FoldingEngine.param_rotations := None;
     FoldingEngine.param_points := None;
     FoldingEngine.param_angle := None |}.

Definition spiralParams (rotations : Z) : FoldingEngine.Params :=
  {| FoldingEngine.param_direction := None;
     FoldingEngine.param_numFolds := None;
     FoldingEngine.param_centerX := None;
     FoldingEngine.param_centerY := None;
     FoldingEngine.param_rotations := Some rotations;
     FoldingEngine.param_points := None;
     FoldingEngine.param_angle := None |}.

Definition applyAccordion (direction : string) (numFolds : Z)
  : FoldingEngine.Call :=
  FoldingEngine.CallApplyFold random (Some FoldingEngine.ACCORDION)
                              (accordionParams direction numFolds).

Definition applySpiral (rotations : Z) : FoldingEngine.Call :=
  FoldingEngine.CallApplyFold random (Some FoldingEngine.SPIRAL)
                              (spiralParams rotations).

(** A dye point at [(x, y)] with the given colour, intensity and
    radius, applied on unfolded cloth. *)
Definition dyeAt (x y : R) (color : ColorManager.Color) (intensity radius : R)
  : DyePhysics.DyePoint :=
  {| DyePhysics.x := x; DyePhysics.y := y; DyePhysics.color := color;
     DyePhysics.intensity := intensity; DyePhysics.radius := radius;
     DyePhysics.layerCount := 1; DyePhysics.timestamp := 0 |}.

(** A dye model holding the given points. *)
Definition dyeState (dyePoints : list DyePhysics.DyePoint)
  : DyePhysics.State :=
  {| DyePhysics.dyePoints := dyePoints;
     DyePhysics.isApplying := false;
     DyePhysics.currentBrushSize := 30;
     DyePhysics.currentIntensity := 80;
     DyePhysics.dyeLayer := [] |}.



End Sample.


(** * Properties *)

(** ** JavaScript primitives *)

Section JSFacts.

Context {A : Type}.

Lemma pop_push (arr : list A) (x : A) : JS.pop (JS.push arr x) = Some (x, arr).
Proof.
  unfold JS.push.
  induction arr as [|a arr IH]; simpl; [reflexivity|].
  now rewrite IH.
Qed.

Lemma pop_Some (arr rest : list A) (x : A) :
  JS.pop arr = Some (x, rest) -> arr = JS.push rest x.
Proof.
  unfold JS.push. revert rest x.
  induction arr as [|a arr IH]; simpl; intros rest x H; [discriminate|].
  destruct (JS.pop arr) as [[z rest']|] eqn:E.
  - injection H as <- <-. simpl. f_equal. now apply IH.
  - injection H as <- <-. destruct arr as [|b arr]; [reflexivity|].
    simpl in E. destruct (JS.pop arr) as [[? ?]|]; discriminate.
Qed.

Lemma pop_None (arr : list A) : JS.pop arr = None -> arr = [].
Proof.
  destruct arr as [|a arr]; [reflexivity|]. simpl.
  destruct (JS.pop arr) as [[? ?]|]; discriminate.
Qed.

Lemma length_push (arr : list A) (x : A) :
  JS.length (JS.push arr x) = (JS.length arr + 1)%Z.
Proof. unfold JS.length, JS.push. rewrite length_app. simpl. lia. Qed.

Lemma Array_fill_map_length (n : Z) (f : nat -> A) (arr : list A) :
  JS.Array_fill_map n f = Some arr -> JS.length arr = n.
Proof.
  unfold JS.Array_fill_map, JS.length.
  destruct ((n <? 0)%Z || (4294967295 <? n)%Z) eqn:E; [discriminate|].
  intros [= <-]. rewrite length_map, length_seq.
  apply orb_false_iff in E as [E _]. apply Z.ltb_ge in E. lia.
Qed.

Lemma Array_fill_map_valid (n : Z) (f : nat -> A) :
  (0 <= n <= 4294967295)%Z ->
  JS.Array_fill_map n f = Some (map f (seq 0 (Z.to_nat n))).
Proof.
  intros [H0 H1]. unfold JS.Array_fill_map.
  destruct (n <? 0)%Z eqn:E0; [apply Z.ltb_lt in E0; lia|].
  destruct (4294967295 <? n)%Z eqn:E1; [apply Z.ltb_lt in E1; lia|].
  reflexivity.
Qed.

End JSFacts.

Lemma Math_round_IZR (z : Z) : JS.Math_round (IZR z) = z.
Proof.
  unfold JS.Math_round. symmetry. apply Int_part_spec. lra.
Qed.

Lemma Math_round_eq (u : R) (z : Z) : u = IZR z -> JS.Math_round u = z.
Proof. intros ->. apply Math_round_IZR. Qed.

(** ** The fold stack *)

Section FoldStack.

Import FoldingEngine.

Variable SHIRT_CONFIG : ShirtConfig.
Variable FOLD_CONFIG : FoldConfig.

(** Whether it completes or throws, [updateLayers] keeps both stacks
    and leaves the layers derived from the fold stack. *)
Lemma updateLayers_settles (s : State) :
  match updateLayers FOLD_CONFIG s with inl t => t | inr t => t end =
  {| folds := folds s; undoStack := undoStack s;
     layers := Spec.derivedLayers FOLD_CONFIG (folds s) |}.
Proof.
  unfold Spec.derivedLayers, updateLayers. simpl.
  destruct (JS.Array_fill_map _ _); reflexivity.
Qed.

Ltac settle :=
  match goal with
  | |- context [updateLayers FOLD_CONFIG ?s1] =>
      let H := fresh in
      pose proof (updateLayers_settles s1) as H;
      destruct (updateLayers FOLD_CONFIG s1); simpl in *; exact H
  end.

Lemma applyFold_state random (s : State) foldType params :
  fst (applyFold SHIRT_CONFIG FOLD_CONFIG random s foldType params) = s \/
  exists fold,
    fst (applyFold SHIRT_CONFIG FOLD_CONFIG random s foldType params) =
    {| folds := JS.push (folds s) fold; undoStack := undoStack s;
       layers := Spec.derivedLayers FOLD_CONFIG (JS.push (folds s) fold) |}.
Proof.
  unfold applyFold.
  destruct (_ <=? _)%Z; [now left|].
  destruct (createFold _ _ _ _) as [fold|]; [|now left].
  right. exists fold. settle.
Qed.

Lemma undo_state (s : State) :
  fst (undo FOLD_CONFIG s) =
  match JS.pop (folds s) with
  | None => s
  | Some (fold, rest) =>
      {| folds := rest; undoStack := JS.push (undoStack s) fold;
         layers := Spec.derivedLayers FOLD_CONFIG rest |}
  end.
Proof.
  unfold undo.
  destruct (JS.pop (folds s)) as [[fold rest]|]; [|reflexivity]. settle.
Qed.

Lemma redo_state (s : State) :
  fst (redo FOLD_CONFIG s) =
  match JS.pop (undoStack s) with
  | None => s
  | Some (fold, rest) =>
      {| folds := JS.push (folds s) fold; undoStack := rest;
         layers := Spec.derivedLayers FOLD_CONFIG (JS.push (folds s) fold) |}
  end.
Proof.
  unfold redo.
  destruct (JS.pop (undoStack s)) as [[fold rest]|]; [|reflexivity]. settle.
Qed.

Lemma run_snoc calls call :
  run SHIRT_CONFIG FOLD_CONFIG (calls ++ [call]) =
  step SHIRT_CONFIG FOLD_CONFIG (run SHIRT_CONFIG FOLD_CONFIG calls) call.
Proof. unfold run. now rewrite fold_left_app. Qed.

Lemma step_consistent (s : State) call :
  Spec.consistent FOLD_CONFIG s ->
  Spec.consistent FOLD_CONFIG (step SHIRT_CONFIG FOLD_CONFIG s call).
Proof.
  intros Hs. destruct call as [random foldType params| | |]; simpl.
  - destruct (applyFold_state random s foldType params) as [->|[fold ->]];
      [exact Hs|now left].
  - rewrite undo_state.
    destruct (JS.pop (folds s)) as [[fold rest]|]; [now left|exact Hs].
  - rewrite redo_state.
    destruct (JS.pop (undoStack s)) as [[fold rest]|]; [now left|exact Hs].
  - now right.
Qed.

Lemma run_consistent calls :
  Spec.consistent FOLD_CONFIG (run SHIRT_CONFIG FOLD_CONFIG calls).
Proof.
  induction calls as [|call calls IH] using rev_ind.
  - now right.
  - rewrite run_snoc. now apply step_consistent.
Qed.

(** The loop of [updateLayers] computes the product of the
    multipliers. *)
Lemma currentMultiplier_product (fs : list Fold) :
  currentMultiplier fs =
  fold_right (fun fold m => (layerMultiplier fold * m)%Z) 1%Z fs.
Proof.
  unfold currentMultiplier.
  enough (forall a,
             fold_left (fun m fold => (m * layerMultiplier fold)%Z) fs a =
             (a * fold_right (fun fold m => (layerMultiplier fold * m)%Z)
                             1%Z fs)%Z) as H
      by (rewrite H; lia).
  induction fs as [|f fs IH]; intros a; simpl; [lia|].
  rewrite IH. lia.
Qed.

Lemma product_ge_1 (fs : list Fold) :
  Forall (fun fold => (1 <= layerMultiplier fold)%Z) fs ->
  (1 <= fold_right (fun fold m => (layerMultiplier fold * m)%Z) 1%Z fs)%Z.
Proof.
  induction 1 as [|f fs Hf _ IH]; simpl; [lia|nia].
Qed.

Lemma derivedLayers_length (fs : list Fold) :
  (0 <= Spec.clampedProduct FOLD_CONFIG fs <= 4294967295)%Z ->
  JS.length (Spec.derivedLayers FOLD_CONFIG fs) =
  Spec.clampedProduct FOLD_CONFIG fs.
Proof.
  intros Hn. unfold Spec.derivedLayers, updateLayers. simpl.
  rewrite currentMultiplier_product. fold (Spec.clampedProduct FOLD_CONFIG fs).
  rewrite Array_fill_map_valid by exact Hn. simpl.
  unfold JS.length. rewrite length_map, length_seq. lia.
Qed.

(** C7. [applyFold] never touches the redo buffer: whether the fold is
    applied, refused at the layer cap, of an unknown type, or makes
    [updateLayers] throw, [undoStack] is what it was; so after an
    [undo], a fresh [applyFold] leaves the undone fold in the buffer.
    Of all the calls, only [undo] adds to the buffer and only [redo]
    takes from it ([clear] empties it). *)
Theorem applyFold_keeps_redo_buffer :
  (forall random (s : State) foldType params,
      undoStack (fst (applyFold SHIRT_CONFIG FOLD_CONFIG random s
                                foldType params)) = undoStack s) /\
  (forall random rest last buffer ls foldType params,
      undoStack
        (fst (applyFold SHIRT_CONFIG FOLD_CONFIG random
                (fst (undo FOLD_CONFIG
                           {| folds := JS.push rest last;
                              undoStack := buffer; layers := ls |}))
                foldType params)) =
      JS.push buffer last) /\
  (forall (s : State) call,
      let s' := step SHIRT_CONFIG FOLD_CONFIG s call in
      undoStack s' = undoStack s \/
      (call = CallUndo /\
       exists fold, undoStack s' = JS.push (undoStack s) fold) \/
      (call = CallRedo /\
       exists fold, undoStack s = JS.push (undoStack s') fold) \/
      (call = CallClear /\ undoStack s' = [])).
Proof.
  assert (keeps : forall random (s : State) foldType params,
             undoStack (fst (applyFold SHIRT_CONFIG FOLD_CONFIG random s
                                       foldType params)) = undoStack s).
  { intros random s foldType params.
    destruct (applyFold_state random s foldType params) as [->|[fold ->]];
      reflexivity. }
  split; [exact keeps|]. split.
  - intros. rewrite keeps, undo_state. simpl. now rewrite pop_push.
  - intros s [random foldType params| | |]; simpl.
    + left. apply keeps.
    + rewrite undo_state.
      destruct (JS.pop (folds s)) as [[fold rest]|]; [|now left].
      right. left. split; [reflexivity|]. now exists fold.
    + rewrite redo_state.
      destruct (JS.pop (undoStack s)) as [[fold rest]|] eqn:E; [|now left].
      right. right. left. split; [reflexivity|].
      exists fold. simpl. now apply pop_Some.
    + right. right. right. now split.
Qed.

(** C6. In every state the engine reaches with at least one fold on the
    stack, [undo] followed by [redo] gives back the very state it
    started from: the same folds in the same order, the same redo
    buffer and the same layers. *)
Theorem undo_then_redo_restores calls :
  let s := run SHIRT_CONFIG FOLD_CONFIG calls in
  folds s <> [] ->
  fst (redo FOLD_CONFIG (fst (undo FOLD_CONFIG s))) = s /\
  getFolds (fst (redo FOLD_CONFIG (fst (undo FOLD_CONFIG s)))) = getFolds s /\
  getLayers (fst (redo FOLD_CONFIG (fst (undo FOLD_CONFIG s)))) = getLayers s.
Proof.
  intros s Hne.
  assert (E : fst (redo FOLD_CONFIG (fst (undo FOLD_CONFIG s))) = s).
  { pose proof (run_consistent calls) as Hc. fold s in Hc.
    rewrite redo_state, undo_state.
    destruct (JS.pop (folds s)) as [[fold rest]|] eqn:Hpop.
    - apply pop_Some in Hpop. simpl. rewrite pop_push.
      destruct Hc as [Hl|[Hf _]]; [|contradiction].
      destruct s as [fs us ls]; simpl in *. subst fs. now rewrite Hl.
    - apply pop_None in Hpop. contradiction. }
  now rewrite E.
Qed.

(** C1, as the code has it.  Let the cap [MAX_LAYERS] be an integer
    from 1 to 4294967295 (the largest array length), let the folds be
    applied with integer parameters, and let every fold on the stack
    multiply the layers by at least 1.  In every state the engine
    reaches, the layer count a dye
    application snapshots, [max(1, layers.length)], is at least 1 and
    is the product of the multipliers on the stack clamped to the cap.
    [layers.length] itself is that number whenever [updateLayers]
    computed the layers (after an applied fold, an undo or a redo, and
    so whenever the stack is not empty); in the state the constructor
    and [clear] leave, the stack and the layers are both empty. *)
Theorem effective_layer_count_reachable calls :
  (1 <= MAX_LAYERS FOLD_CONFIG <= 4294967295)%Z ->
  let s := run SHIRT_CONFIG FOLD_CONFIG calls in
  Forall (fun fold => (1 <= layerMultiplier fold)%Z) (folds s) ->
  (1 <= Spec.snapshotLayerCount s)%Z /\
  Spec.snapshotLayerCount s = Spec.clampedProduct FOLD_CONFIG (folds s) /\
  (JS.length (layers s) = Spec.clampedProduct FOLD_CONFIG (folds s) \/
   (folds s = [] /\ layers s = [])) /\
  (folds s <> [] ->
   JS.length (layers s) = Spec.clampedProduct FOLD_CONFIG (folds s)).
Proof.
  intros Hcap s Hvalid.
  pose proof (run_consistent calls) as Hc. fold s in Hc.
  pose proof (product_ge_1 Hvalid) as Hprod.
  assert (Hn : (1 <= Spec.clampedProduct FOLD_CONFIG (folds s)
                <= 4294967295)%Z)
    by (unfold Spec.clampedProduct; lia).
  assert (Hlen : JS.length (Spec.derivedLayers FOLD_CONFIG (folds s)) =
                 Spec.clampedProduct FOLD_CONFIG (folds s))
    by (apply derivedLayers_length; lia).
  unfold Spec.snapshotLayerCount, getLayers.
  destruct Hc as [Hl|[Hf Hl]].
  - rewrite Hl, Hlen. split; [lia|]. split; [lia|]. split; [now left|].
    reflexivity.
  - rewrite Hl. split; [unfold JS.length; simpl; lia|].
    split; [|split; [now right|]].
    + rewrite Hf. unfold Spec.clampedProduct, JS.length. simpl. lia.
    + intros Hne. contradiction.
Qed.

End FoldStack.

(** A fold right after construction: three layers, as in the
    specification's scenario. *)
Example accordion_of_three_gives_three_layers :
  JS.length
    (FoldingEngine.layers
       (FoldingEngine.run Sample.shirt Sample.foldConfig
                          [Sample.applyAccordion "horizontal" 3])) = 3%Z.
Proof. reflexivity. Qed.

(** C1, counterexample.  In the state the constructor leaves, and again
    after [clear], the fold stack is empty, so the clamped product of
    its multipliers is 1, but the derived layer sequence is empty: its
    length is 0, not at least 1, and not the clamped product.  Undoing
    the only fold reaches the same empty stack with one layer. *)
Lemma effective_layer_count_counterexample :
  let fresh := FoldingEngine.run Sample.shirt Sample.foldConfig [] in
  let cleared :=
    FoldingEngine.run Sample.shirt Sample.foldConfig
                      [Sample.applyAccordion "horizontal" 3;
                       FoldingEngine.CallClear] in
  let undone :=
    FoldingEngine.run Sample.shirt Sample.foldConfig
                      [Sample.applyAccordion "horizontal" 3;
                       FoldingEngine.CallUndo] in
  (FoldingEngine.folds fresh = [] /\
   JS.length (FoldingEngine.layers fresh) = 0%Z /\
   Spec.clampedProduct Sample.foldConfig (FoldingEngine.folds fresh) = 1%Z) /\
  (FoldingEngine.folds cleared = [] /\
   JS.length (FoldingEngine.layers cleared) = 0%Z /\
   Spec.clampedProduct Sample.foldConfig (FoldingEngine.folds cleared) = 1%Z) /\
  (FoldingEngine.folds undone = [] /\
   JS.length (FoldingEngine.layers undone) = 1%Z) /\
  ~ (forall calls,
        let s := FoldingEngine.run Sample.shirt Sample.foldConfig calls in
        (1 <= JS.length (FoldingEngine.layers s))%Z /\
        JS.length (FoldingEngine.layers s) =
        Spec.clampedProduct Sample.foldConfig (FoldingEngine.folds s)).
Proof.
  repeat split; try reflexivity.
  intros H. specialize (H []). simpl in H. destruct H as [H _].
  unfold JS.length in H. simpl in H. lia.
Qed.

(** ** Subtractive mixing *)

Section Mixing.

Import ColorManager.

Local Open Scope R_scope.

(** Converting a colour to CMY and back gives the colour again. *)
Lemma cmyToRgb_rgbToCmy (a : Color) : cmyToRgb (rgbToCmy a) = a.
Proof.
  destruct a as [ra ga ba]. unfold cmyToRgb, rgbToCmy. simpl.
  f_equal; apply Math_round_eq; lra.
Qed.

End Mixing.

(** ** Subtractive mixing in double precision *)

Lemma doubles_without_rounding (a b : ColorManager.Color) (ratio : R) :
  Doubles.mixColors (fun x => x) a b ratio = ColorManager.mixColors a b ratio.
Proof. reflexivity. Qed.

(** Numbers less than 1 apart round to integers at most 1 apart, and a
    number less than one half from an integer rounds to it. *)
Lemma Math_round_close (x y : R) :
  (- 1 < x - y < 1)%R -> (Z.abs (JS.Math_round x - JS.Math_round y) <= 1)%Z.
Proof.
  intros H. unfold JS.Math_round.
  destruct (base_Int_part (x + / 2)) as [Hx Hx'].
  destruct (base_Int_part (y + / 2)) as [Hy Hy'].
  apply Z.abs_le. split.
  - apply Z.lt_pred_le. apply lt_IZR. unfold Z.pred.
    rewrite plus_IZR, minus_IZR, opp_IZR. simpl. lra.
  - apply Z.lt_succ_r. apply lt_IZR. unfold Z.succ.
    rewrite plus_IZR, minus_IZR. simpl. lra.
Qed.

Lemma Math_round_near (x : R) (z : Z) :
  (IZR z - / 2 < x < IZR z + / 2)%R -> JS.Math_round x = z.
Proof.
  intros H. unfold JS.Math_round. symmetry. apply Int_part_spec. lra.
Qed.

Section RoundedMixing.

Local Open Scope R_scope.

Variable rnd : R -> R.
Variable eps : R.

Hypothesis eps_small : 0 <= eps <= / 100000.
Hypothesis rnd_accurate : Spec.roundsWithin rnd eps.

Lemma close_product (x x0 y y0 dx dy : R) :
  -2 <= x0 <= 2 -> -2 <= y0 <= 2 -> 0 <= dx -> 0 <= dy <= 1 ->
  x0 - dx <= x <= x0 + dx -> y0 - dy <= y <= y0 + dy ->
  x0 * y0 - (3 * dx + 2 * dy) <= x * y <= x0 * y0 + (3 * dx + 2 * dy).
Proof.
  intros Hx0 Hy0 Hdx Hdy Hx Hy.
  assert (E : x * y = x0 * y0 + x0 * (y - y0) + y * (x - x0)) by ring.
  assert (H1 : - (2 * dy) <= x0 * (y - y0) <= 2 * dy) by nra.
  assert (H2 : - (3 * dx) <= y * (x - x0) <= 3 * dx) by nra.
  lra.
Qed.

Lemma product_near_unit (a x : R) :
  0 <= a <= 1 -> - / 1000 <= x <= 1 + / 1000 ->
  - / 500 <= a * x <= 1 + / 500.
Proof. intros Ha Hx. nra. Qed.

(** The complement of a channel, as the doubles have it, is within
    [2 eps] of the exact one. *)
Lemma rounded_complement (v : Z) :
  (0 <= v <= 255)%Z ->
  Spec.toComplement v - 2 * eps
  <= rnd (1 - rnd (IZR v / 255))
  <= Spec.toComplement v + 2 * eps /\
  0 <= Spec.toComplement v <= 1.
Proof.
  intros [H0 H255]. apply IZR_le in H0. apply IZR_le in H255.
  unfold Spec.toComplement.
  assert (H1 : -512 <= IZR v / 255 <= 512) by lra.
  pose proof (rnd_accurate H1) as Hq.
  assert (H2 : -512 <= 1 - rnd (IZR v / 255) <= 512) by lra.
  pose proof (rnd_accurate H2) as Hc.
  lra.
Qed.

(** The value [cmyToRgb] hands to [Math.round] for one channel of a
    mix is within [5000 eps] of the exact interpolation of the two
    channels. *)
Lemma rounded_channel (v1 v2 : Z) (ratio : R) :
  (0 <= v1 <= 255)%Z -> (0 <= v2 <= 255)%Z ->
  - / 1000 <= ratio <= 1 + / 1000 ->
  let c1 := rnd (1 - rnd (IZR v1 / 255)) in
  let c2 := rnd (1 - rnd (IZR v2 / 255)) in
  let mixed := rnd (rnd (c1 * rnd (1 - ratio)) + rnd (c2 * ratio)) in
  let exact := IZR v1 * (1 - ratio) + IZR v2 * ratio in
  exact - 5000 * eps <= rnd (rnd (1 - mixed) * 255) <= exact + 5000 * eps.
Proof.
  intros Hv1 Hv2 Hratio.
  destruct (rounded_complement Hv1) as [Hc1 Ha].
  destruct (rounded_complement Hv2) as [Hc2 Hb].
  cbv zeta.
  set (c1 := rnd (1 - rnd (IZR v1 / 255))) in *.
  set (c2 := rnd (1 - rnd (IZR v2 / 255))) in *.
  assert (Ea : IZR v1 = (1 - Spec.toComplement v1) * 255)
    by (unfold Spec.toComplement; lra).
  assert (Eb : IZR v2 = (1 - Spec.toComplement v2) * 255)
    by (unfold Spec.toComplement; lra).
  set (a := Spec.toComplement v1) in *.
  set (b := Spec.toComplement v2) in *.
  rewrite Ea, Eb. clear Ea Eb.
  assert (Hs0 : -512 <= 1 - ratio <= 512) by lra.
  pose proof (rnd_accurate Hs0) as Hs.
  set (s := rnd (1 - ratio)) in *.
  assert (Hp1 : a * (1 - ratio) - 8 * eps <= c1 * s
                <= a * (1 - ratio) + 8 * eps).
  { pose proof (@close_product c1 a s (1 - ratio) (2 * eps) eps) as P.
    lapply P; [clear P; intros P|lra].
    lapply P; [clear P; intros P|lra].
    lapply P; [clear P; intros P|lra].
    lapply P; [clear P; intros P|lra].
    lapply P; [clear P; intros P|lra].
    lapply P; [clear P; intros P|lra].
    lra. }
  assert (Hp2 : b * ratio - 6 * eps <= c2 * ratio <= b * ratio + 6 * eps).
  { pose proof (@close_product c2 b ratio ratio (2 * eps) 0) as P.
    lapply P; [clear P; intros P|lra].
    lapply P; [clear P; intros P|lra].
    lapply P; [clear P; intros P|lra].
    lapply P; [clear P; intros P|lra].
    lapply P; [clear P; intros P|lra].
    lapply P; [clear P; intros P|lra].
    lra. }
  assert (Ba : - / 500 <= a * (1 - ratio) <= 1 + / 500)
    by (apply product_near_unit; lra).
  assert (Bb : - / 500 <= b * ratio <= 1 + / 500)
    by (apply product_near_unit; lra).
  assert (H1 : -512 <= c1 * s <= 512) by lra.
  pose proof (rnd_accurate H1) as R1.
  assert (H2 : -512 <= c2 * ratio <= 512) by lra.
  pose proof (rnd_accurate H2) as R2.
  set (p1 := rnd (c1 * s)) in *. set (p2 := rnd (c2 * ratio)) in *.
  assert (H3 : -512 <= p1 + p2 <= 512) by lra.
  pose proof (rnd_accurate H3) as R3.
  set (mixed := rnd (p1 + p2)) in *.
  assert (H4 : -512 <= 1 - mixed <= 512) by lra.
  pose proof (rnd_accurate H4) as R4.
  set (w := rnd (1 - mixed)) in *.
  assert (H5 : -512 <= w * 255 <= 512) by lra.
  pose proof (rnd_accurate H5) as R5.
  lra.
Qed.

(** C8.  Let [rnd] stand for the rounding of the doubles, accurate
    within [eps] (at most 1/100000; 2^-44 for IEEE-754 doubles) on
    results between -512 and 512.  For all RGB colours [a] and [b]:
    [mixColors(a, b, 0)] is [a], [mixColors(a, b, 1)] is [b], and for
    every ratio [t] between 0 and 1 the colours [mixColors(a, b, t)]
    and [mixColors(b, a, 1 - t)] differ by at most 1 on every channel.
    (They do differ by 1 where the exact value lies halfway between two
    integers: channels 0 and 45 at ratio 0.1 give 4 one way and 5 the
    other.) *)
Theorem mixColors_endpoints_and_complement_in_doubles
        (a b : ColorManager.Color) :
  Spec.validColor a -> Spec.validColor b ->
  Doubles.mixColors rnd a b 0 = a /\
  Doubles.mixColors rnd a b 1 = b /\
  (forall t : R,
      0 <= t <= 1 ->
      Spec.channelsWithin 1 (Doubles.mixColors rnd a b t)
                          (Doubles.mixColors rnd b a (rnd (1 - t)))).
Proof.
  intros [Hra [Hga Hba]] [Hrb [Hgb Hbb]].
  destruct a as [ra ga ba], b as [rb gb bb]. simpl in *.
  assert (Hend0 : forall v1 v2,
             (0 <= v1 <= 255)%Z -> (0 <= v2 <= 255)%Z ->
             JS.Math_round
               (rnd (rnd (1 - rnd (rnd (rnd (1 - rnd (IZR v1 / 255)) *
                                        rnd (1 - 0)) +
                                   rnd (rnd (1 - rnd (IZR v2 / 255)) * 0)))
                     * 255)) = v1).
  { intros v1 v2 H1 H2. apply Math_round_near.
    assert (Hr : - / 1000 <= 0 <= 1 + / 1000) by lra.
    pose proof (rounded_channel H1 H2 Hr) as H. cbv zeta in H. lra. }
  assert (Hend1 : forall v1 v2,
             (0 <= v1 <= 255)%Z -> (0 <= v2 <= 255)%Z ->
             JS.Math_round
               (rnd (rnd (1 - rnd (rnd (rnd (1 - rnd (IZR v1 / 255)) *
                                        rnd (1 - 1)) +
                                   rnd (rnd (1 - rnd (IZR v2 / 255)) * 1)))
                     * 255)) = v2).
  { intros v1 v2 H1 H2. apply Math_round_near.
    assert (Hr : - / 1000 <= 1 <= 1 + / 1000) by lra.
    pose proof (rounded_channel H1 H2 Hr) as H. cbv zeta in H. lra. }
  assert (Hsym : forall v1 v2 t,
             (0 <= v1 <= 255)%Z -> (0 <= v2 <= 255)%Z -> 0 <= t <= 1 ->
             (Z.abs
                (JS.Math_round
                   (rnd (rnd (1 - rnd (rnd (rnd (1 - rnd (IZR v1 / 255)) *
                                            rnd (1 - t)) +
                                       rnd (rnd (1 - rnd (IZR v2 / 255)) * t)))
                         * 255)) -
                 JS.Math_round
                   (rnd (rnd (1 - rnd (rnd (rnd (1 - rnd (IZR v2 / 255)) *
                                            rnd (1 - rnd (1 - t))) +
                                       rnd (rnd (1 - rnd (IZR v1 / 255)) *
                                            rnd (1 - t))))
                         * 255))) <= 1)%Z).
  { intros v1 v2 t H1 H2 Ht. apply Math_round_close.
    assert (Hr : - / 1000 <= t <= 1 + / 1000) by lra.
    pose proof (rounded_channel H1 H2 Hr) as Hab. cbv zeta in Hab.
    assert (Ht0 : -512 <= 1 - t <= 512) by lra.
    pose proof (rnd_accurate Ht0) as Hu.
    set (u := rnd (1 - t)) in *.
    assert (Hr' : - / 1000 <= u <= 1 + / 1000) by lra.
    pose proof (rounded_channel H2 H1 Hr') as Hba'. cbv zeta in Hba'.
    destruct H1 as [H1 H1']. apply IZR_le in H1. apply IZR_le in H1'.
    destruct H2 as [H2 H2']. apply IZR_le in H2. apply IZR_le in H2'.
    assert (Hexact : - (255 * eps)
                     <= (IZR v2 * (1 - u) + IZR v1 * u) -
                        (IZR v1 * (1 - t) + IZR v2 * t)
                     <= 255 * eps).
    { replace (IZR v2 * (1 - u) + IZR v1 * u -
               (IZR v1 * (1 - t) + IZR v2 * t))
        with ((IZR v1 - IZR v2) * (u - (1 - t))) by ring.
      nra. }
    lra. }
  unfold Doubles.mixColors, Doubles.cmyToRgb, Doubles.rgbToCmy,
    Spec.channelsWithin. simpl.
  split; [|split].
  - f_equal; apply Hend0; assumption.
  - f_equal; apply Hend1; assumption.
  - intros t Ht. repeat split; apply Hsym; assumption.
Qed.

End RoundedMixing.

(** Mixing red and blue half and half. *)
Example mix_red_blue_half :
  ColorManager.mixColors Sample.red Sample.blue (/ 2) =
  {| ColorManager.r := 128; ColorManager.g := 0; ColorManager.b := 128 |}.
Proof.
  unfold ColorManager.mixColors, ColorManager.cmyToRgb,
    ColorManager.rgbToCmy, JS.Math_round. simpl.
  f_equal; symmetry; apply Int_part_spec; lra.
Qed.

(** ** The dye model *)

Section DyeModel.

Import DyePhysics.

Local Open Scope R_scope.

Variable SHIRT_CONFIG : ShirtConfig.
Variable DYE_CONFIG : DyeConfig.
Variable distance : R -> R -> R -> R -> R.



(** C9. If every recorded dye point lies farther from the queried
    position than its radius, [mixDyesAtPoint] returns white
    (255, 255, 255). *)
Theorem mixDyesAtPoint_uncovered_is_white (s : State) (x0 y0 : R) :
  (forall p, In p (dyePoints s) -> radius p < distance x0 y0 (x p) (y p)) ->
  mixDyesAtPoint distance s x0 y0 = Spec.white.
Proof.
  intros Hfar. unfold mixDyesAtPoint.
  assert (E : filter (fun point => JS.leb (distance x0 y0 (x point) (y point))
                                           (radius point))
                     (dyePoints s) = []).
  { induction (dyePoints s) as [|p ps IH]; [reflexivity|]. simpl.
    unfold JS.leb at 1.
    destruct (Rle_dec _ _) as [Hle|_].
    - specialize (Hfar p (or_introl eq_refl)). lra.
    - apply IH. intros q Hq. apply Hfar. now right. }
  rewrite E. reflexivity.
Qed.


(** C5. The dye point [applyDye] records carries the current intensity
    and the layer count snapshotted from the engine; the disc painted
    for it has, at its centre, the alpha of the effective intensity
    [intensity / sqrt(layerCount)]; and a dye point of intensity 80
    applied on 4 layers has effective intensity 40. *)
Theorem applied_dye_effective_intensity :
  (forall (env : Env) (s : State) (x0 y0 : R),
      let s' := fst (applyDye DYE_CONFIG env s x0 y0) in
      exists dp,
        JS.pop (dyePoints s') = Some (dp, dyePoints s) /\
        intensity dp = currentIntensity s /\
        layerCount dp = Z.max 1 (JS.length (engineLayers env)) /\
        effectiveIntensity dp =
        currentIntensity s /
        sqrt (IZR (Z.max 1 (JS.length (engineLayers env)))) /\
        nth_error (dyeLayer s') (List.length (dyeLayer s)) =
        Some (renderDyePoint dp) /\
        Spec.centreAlpha (renderDyePoint dp) =
        Some (intensity dp / sqrt (IZR (layerCount dp)) / 100 * 0.8)) /\
  (forall (x0 y0 : R) color (r : R) (t : Z),
      effectiveIntensity
        {| x := x0; y := y0; color := color; intensity := 80; radius := r;
           layerCount := 4; timestamp := t |} = 40).
Proof.
  split.
  - intros env s x0 y0. simpl.
    eexists. split; [apply pop_push|].
    repeat split.
    rewrite nth_error_app2 by lia. now rewrite Nat.sub_diag.
  - intros. unfold effectiveIntensity. simpl.
    replace 4 with (2 * 2) by lra. rewrite sqrt_square by lra. lra.
Qed.

Lemma sqrt_layerCount_ge_1 (n : Z) : (1 <= n)%Z -> 1 <= sqrt (IZR n).
Proof.
  intros Hn. rewrite <- sqrt_1 at 1. apply sqrt_le_1_alt.
  now apply IZR_le.
Qed.

Lemma applyDye_points (env : Env) (s : State) (x0 y0 : R) :
  exists dp,
    dyePoints (fst (applyDye DYE_CONFIG env s x0 y0)) =
    JS.push (dyePoints s) dp /\
    layerCount dp = Z.max 1 (JS.length (engineLayers env)).
Proof. simpl. eexists. split; reflexivity. Qed.

Lemma step_layerCounts (s : State) (call : Call) :
  Forall (fun dp => (1 <= layerCount dp)%Z) (dyePoints s) ->
  Forall (fun dp => (1 <= layerCount dp)%Z)
         (dyePoints (step SHIRT_CONFIG DYE_CONFIG s call)).
Proof.
  intros Hs.
  assert (Happly : forall env s0 x0 y0,
             dyePoints s0 = dyePoints s ->
             Forall (fun dp => (1 <= layerCount dp)%Z)
                    (dyePoints (fst (applyDye DYE_CONFIG env s0 x0 y0)))).
  { intros env s0 x0 y0 E.
    destruct (applyDye_points env s0 x0 y0) as [dp [-> Hdp]].
    unfold JS.push. rewrite E. apply Forall_app. split; [exact Hs|].
    constructor; [lia|constructor]. }
  destruct call as [size|i|env x0 y0|env x0 y0| |]; simpl; try exact Hs.
  - unfold startApplying. destruct (negb _); [exact Hs|]. now apply Happly.
  - unfold continueApplying. destruct (_ || _); [exact Hs|]. now apply Happly.
  - constructor.
Qed.

(** C10. Every dye point the model ever holds has a layer count of at
    least 1, so the square root that divides its intensity is at least
    1 and never zero; in particular a dye applied while the engine's
    layer sequence is empty (fresh, or just cleared) records a layer
    count of 1. *)
Theorem recorded_layer_count_positive :
  (forall calls,
      Forall (fun dp => (1 <= layerCount dp)%Z /\
                        1 <= sqrt (IZR (layerCount dp)) /\
                        sqrt (IZR (layerCount dp)) <> 0)
             (dyePoints (run SHIRT_CONFIG DYE_CONFIG calls))) /\
  (forall (engine : FoldingEngine.State) color now random s x0 y0,
      exists dp,
        JS.pop (dyePoints
                  (fst (applyDye DYE_CONFIG
                          (Spec.envOf (fst (FoldingEngine.clear engine))
                                      color now random) s x0 y0))) =
        Some (dp, dyePoints s) /\
        layerCount dp = 1%Z) /\
  (forall color now random s x0 y0,
      exists dp,
        JS.pop (dyePoints
                  (fst (applyDye DYE_CONFIG
                          (Spec.envOf FoldingEngine.initial color now random)
                          s x0 y0))) =
        Some (dp, dyePoints s) /\
        layerCount dp = 1%Z).
Proof.
  split; [|split].
  - intros calls.
    assert (H : Forall (fun dp => (1 <= layerCount dp)%Z)
                       (dyePoints (run SHIRT_CONFIG DYE_CONFIG calls))).
    { induction calls as [|call calls IH] using rev_ind.
      - constructor.
      - unfold run. rewrite fold_left_app. simpl.
        now apply step_layerCounts. }
    eapply Forall_impl; [|exact H]. intros dp Hdp.
    pose proof (sqrt_layerCount_ge_1 Hdp). repeat split; [exact Hdp|lra|lra].
  - intros. simpl. eexists. split; [apply pop_push|reflexivity].
  - intros. simpl. eexists. split; [apply pop_push|reflexivity].
Qed.

End DyeModel.

(** ** Accordion crease lines *)

Section Accordion.

Import FoldingEngine.

Local Open Scope R_scope.
Local Open Scope string_scope.

Variable SHIRT_CONFIG : ShirtConfig.

Local Notation "'left'" := (Spec.bodyLeft SHIRT_CONFIG).
Local Notation "'top'" := (Spec.bodyTop SHIRT_CONFIG).
Local Notation "'bodyWidth'" := (Spec.bodyWidth SHIRT_CONFIG).
Local Notation "'bodyHeight'" := (Spec.bodyHeight SHIRT_CONFIG).

(** An accordion fold stores [numFolds] crease lines, in either
    direction. *)
Lemma accordion_line_count (direction : string) (numFolds : Z) :
  List.length (calculateAccordionLines SHIRT_CONFIG direction numFolds) =
  Z.to_nat numFolds.
Proof.
  unfold calculateAccordionLines.
  destruct (String.eqb direction "horizontal");
    now rewrite length_map, length_seq.
Qed.

Lemma INR_index_bounds (numFolds : Z) (i : nat) :
  In i (seq 1 (Z.to_nat numFolds)) ->
  1 <= INR i /\ INR i < IZR numFolds + 1.
Proof.
  intros Hi. apply in_seq in Hi.
  assert (Hpos : (0 < numFolds)%Z) by lia.
  split.
  - replace 1 with (INR 1) by reflexivity. apply le_INR. lia.
  - rewrite <- (Z2Nat.id numFolds) by lia. rewrite <- INR_IZR_INZ.
    replace 1 with (INR 1) by reflexivity. rewrite <- plus_INR.
    apply lt_INR. lia.
Qed.

(** Vertical creases do what the specification says: they run from the
    top to the bottom of the printable body, at the multiples
    [1 .. numFolds] of [width / (numFolds + 1)] from its left edge, and
    strictly between its left and right edges. *)
Lemma accordion_vertical_lines_inside (numFolds : Z) (line : Line) :
  0 < bodyWidth ->
  In line (calculateAccordionLines SHIRT_CONFIG "vertical" numFolds) ->
  exists i : nat,
    (1 <= i <= Z.to_nat numFolds)%nat /\
    x1 line = left + bodyWidth / (IZR numFolds + 1) * INR i /\
    x2 line = x1 line /\
    left < x1 line < left + bodyWidth /\
    y1 line = top /\ y2 line = top + bodyHeight.
Proof.
  intros Hw Hin. unfold calculateAccordionLines in Hin. simpl in Hin.
  apply in_map_iff in Hin as [i [<- Hi]].
  destruct (INR_index_bounds _ _ Hi) as [Hlo Hhi].
  apply in_seq in Hi.
  unfold Spec.bodyLeft, Spec.bodyTop, Spec.bodyWidth, Spec.bodyHeight,
    Spec.body in *. simpl in *.
  exists i. split; [lia|]. split; [reflexivity|]. split; [reflexivity|].
  set (d := IZR numFolds + 1) in *.
  set (w := WIDTH SHIRT_CONFIG) in *.
  assert (Hd : 0 < d) by lra.
  assert (E : w / d * INR i * d = w * INR i) by (field; lra).
  split; [split; nra|]. split; lra.
Qed.

(** Horizontal creases are spaced by the whole shirt height over
    [numFolds + 1], counted from the top of the printable body. *)
Lemma accordion_horizontal_lines (numFolds : Z) (line : Line) :
  In line (calculateAccordionLines SHIRT_CONFIG "horizontal" numFolds) ->
  exists i : nat,
    (1 <= i <= Z.to_nat numFolds)%nat /\
    y1 line = top + HEIGHT SHIRT_CONFIG / (IZR numFolds + 1) * INR i /\
    y2 line = y1 line /\
    x1 line = left /\ x2 line = left + bodyWidth.
Proof.
  intros Hin. unfold calculateAccordionLines in Hin. simpl in Hin.
  apply in_map_iff in Hin as [i [<- Hi]]. apply in_seq in Hi.
  unfold Spec.bodyLeft, Spec.bodyTop, Spec.bodyWidth, Spec.bodyHeight,
    Spec.body in *. simpl.
  exists i. split; [lia|]. repeat split. lra.
Qed.

(** With enough creases for the shirt height, the lowest horizontal
    crease lies on or below the bottom edge of the printable body. *)
Lemma accordion_horizontal_lowest_line_leaves_body (k : nat) :
  HEIGHT SHIRT_CONFIG <= 80 * (INR k + 2) ->
  exists line,
    In line (calculateAccordionLines SHIRT_CONFIG "horizontal"
                                     (Z.of_nat (S k))) /\
    top + bodyHeight <= y1 line.
Proof.
  intros Hh. unfold calculateAccordionLines. simpl String.eqb. cbv iota.
  eexists. split.
  - apply in_map_iff. exists (S k). split; [reflexivity|].
    apply in_seq. rewrite Nat2Z.id. lia.
  - unfold Spec.bodyLeft, Spec.bodyTop, Spec.bodyWidth, Spec.bodyHeight,
    Spec.body in *. cbn [TShirtCanvas.body
      TShirtCanvas.createShirtGeometry TShirtCanvas.rect_y
      TShirtCanvas.height y1].
    rewrite <- INR_IZR_INZ. rewrite S_INR.
    set (h := HEIGHT SHIRT_CONFIG) in *.
    assert (Hk : 0 <= INR k) by apply pos_INR.
    assert (E : h / (INR k + 1 + 1) * (INR k + 1) * (INR k + 2) =
                h * (INR k + 1)) by (field; lra).
    nra.
Qed.

(** C3, at the parameters the user interface sends ([horizontal], 3
    creases), for every shirt configuration.  The three creases lie at
    1, 2 and 3 times a quarter of the whole shirt height below the top
    edge of the printable body.  The printable body is 80 shorter than
    the shirt, so this spacing is 20 more than a quarter of the body
    height, and the gap left under the lowest crease is 80 less than
    the spacing: the creases are not evenly spaced across the body. *)
Theorem accordion_horizontal_spacing_uses_shirt_height :
  let spacing := HEIGHT SHIRT_CONFIG / 4 in
  let lines := calculateAccordionLines SHIRT_CONFIG "horizontal" 3 in
  map y1 lines = [top + spacing * 1; top + spacing * 2; top + spacing * 3] /\
  spacing = bodyHeight / 4 + 20 /\
  (top + bodyHeight) - (top + spacing * 3) = spacing - 80 /\
  map y1 lines <>
  [top + bodyHeight / 4 * 1; top + bodyHeight / 4 * 2;
   top + bodyHeight / 4 * 3].
Proof.
  unfold Spec.bodyLeft, Spec.bodyTop, Spec.bodyWidth, Spec.bodyHeight,
    Spec.body in *. simpl.
  split; [repeat (f_equal; try lra)|].
  split; [lra|]. split; [lra|].
  intros H. injection H as H _ _. lra.
Qed.

End Accordion.

(** On a shirt 400 high, four horizontal creases put the lowest one
    exactly on the bottom edge of the printable body. *)
Example four_creases_reach_the_bottom_edge :
  option_map y1
    (nth_error
       (FoldingEngine.calculateAccordionLines Sample.shirt "horizontal" 4) 3) =
  Some (Spec.bodyTop Sample.shirt + Spec.bodyHeight Sample.shirt)%R.
Proof.
  unfold Spec.bodyTop, Spec.bodyHeight, Spec.body. simpl. f_equal. lra.
Qed.

(** ** The unfolder *)

Section Unfolder.

Import PatternGenerator.

Local Open Scope R_scope.

Variable SHIRT_CONFIG : ShirtConfig.
Variable random : nat -> R.






Lemma collects_crumpleCopies point crumplePoints variations :
  Spec.collects (crumpleCopies random point crumplePoints variations)
                (List.length variations + List.length crumplePoints).
Proof.
  revert variations.
  induction crumplePoints as [|cp rest IH]; intros variations ctx; simpl.
  - split; [reflexivity|lia].
  - unfold bind at 1. simpl. unfold bind at 1. simpl.
    match goal with
    | |- context [crumpleCopies random point rest ?vs ?c] =>
        destruct (IH vs c) as [Hl Hn]
    end.
    split; [exact Hl|].
    etransitivity; [exact Hn|].
    unfold JS.push. rewrite length_app. simpl. lia.
Qed.


Lemma firstn_S_nth_error {A} (l : list A) (i : nat) (a : A) :
  nth_error l i = Some a -> firstn (S i) l = firstn i l ++ [a].
Proof.
  revert i. induction l as [|b l IH]; intros [|i] H; simpl in *;
    try discriminate.
  - now injection H as ->.
  - f_equal. now apply IH.
Qed.




End Unfolder.


(** ** Concrete instances *)

(** C6 at a stack of two folds: an accordion of 3 and a spiral of 2. *)
Lemma undo_then_redo_restores_witness :
  let s := FoldingEngine.run Sample.shirt Sample.foldConfig
                             [Sample.applyAccordion "horizontal" 3;
                              Sample.applySpiral 2] in
  FoldingEngine.folds s <> [] /\
  fst (FoldingEngine.redo Sample.foldConfig
         (fst (FoldingEngine.undo Sample.foldConfig s))) = s.
Proof.
  assert (H : FoldingEngine.folds
                (FoldingEngine.run Sample.shirt Sample.foldConfig
                                   [Sample.applyAccordion "horizontal" 3;
                                    Sample.applySpiral 2]) <> [])
    by (simpl; discriminate).
  split; [exact H|].
  exact (proj1 (@undo_then_redo_restores Sample.shirt Sample.foldConfig _ H)).
Defined.

(** C1 after an accordion of 3, a spiral of 2 and one undo: the stack
    holds the accordion and there are 3 layers. *)
Lemma effective_layer_count_reachable_witness :
  let s := FoldingEngine.run Sample.shirt Sample.foldConfig
                             [Sample.applyAccordion "horizontal" 3;
                              Sample.applySpiral 2;
                              FoldingEngine.CallUndo] in
  (1 <= MAX_LAYERS Sample.foldConfig <= 4294967295)%Z /\
  Forall (fun fold => (1 <= FoldingEngine.layerMultiplier fold)%Z)
         (FoldingEngine.folds s) /\
  Spec.snapshotLayerCount s = 3%Z /\
  Spec.snapshotLayerCount s =
  Spec.clampedProduct Sample.foldConfig (FoldingEngine.folds s).
Proof.
  assert (Hcap : (1 <= MAX_LAYERS Sample.foldConfig <= 4294967295)%Z)
    by (simpl; lia).
  assert (Hvalid :
            Forall (fun fold => (1 <= FoldingEngine.layerMultiplier fold)%Z)
                   (FoldingEngine.folds
                      (FoldingEngine.run Sample.shirt Sample.foldConfig
                         [Sample.applyAccordion "horizontal" 3;
                          Sample.applySpiral 2;
                          FoldingEngine.CallUndo])))
    by (simpl; repeat constructor; simpl; lia).
  split; [exact Hcap|]. split; [exact Hvalid|]. split; [reflexivity|].
  exact (proj1 (proj2 (@effective_layer_count_reachable
                         Sample.shirt Sample.foldConfig _ Hcap Hvalid))).
Defined.

(** C9 at a dye of radius 30 at the origin, queried at (30, 40), which
    lies 50 away. *)
Lemma mixDyesAtPoint_uncovered_is_white_witness :
  let s := Sample.dyeState [Sample.dyeAt 0 0 Sample.red 80 30] in
  (forall p, In p (DyePhysics.dyePoints s) ->
             (DyePhysics.radius p <
              Utils.distance 30 40 (DyePhysics.x p) (DyePhysics.y p))%R) /\
  DyePhysics.mixDyesAtPoint Utils.distance s 30 40 = Spec.white.
Proof.
  assert (H : forall p,
             In p (DyePhysics.dyePoints
                     (Sample.dyeState [Sample.dyeAt 0 0 Sample.red 80 30])) ->
             (DyePhysics.radius p <
              Utils.distance 30 40 (DyePhysics.x p) (DyePhysics.y p))%R).
  { intros p [<-|[]]. unfold Utils.distance. simpl.
    replace ((0 - 30) * (0 - 30) + (0 - 40) * (0 - 40))%R
      with (50 * 50)%R by lra.
    rewrite sqrt_square by lra. lra. }
  split; [exact H|].
  exact (@mixDyesAtPoint_uncovered_is_white Utils.distance _ 30%R 40%R H).
Defined.


(** The specification's scenario end to end: a spiral of 2 rotations
    gives 4 layers, and a dye of intensity 80 applied on them is
    recorded with layer count 4 and effective intensity 40. *)
Example dye_on_four_layers :
  let engine := FoldingEngine.run Sample.shirt Sample.foldConfig
                                  [Sample.applySpiral 2] in
  let s := fst (DyePhysics.applyDye
                  Sample.dyeConfig
                  (Spec.envOf engine Sample.red 0 Sample.random)
                  (Sample.dyeState []) 300 300) in
  option_map (fun recorded => DyePhysics.layerCount (fst recorded))
             (JS.pop (DyePhysics.dyePoints s)) = Some 4%Z /\
  option_map (fun recorded => DyePhysics.effectiveIntensity (fst recorded))
             (JS.pop (DyePhysics.dyePoints s)) = Some 40%R.
Proof.
  split; [reflexivity|]. simpl. f_equal.
  unfold DyePhysics.effectiveIntensity. simpl.
  change (80 / sqrt 4 = 40)%R.
  replace 4%R with (2 * 2)%R by lra. rewrite sqrt_square by lra. lra.
Qed.

(** * Further properties of the modules *)

(** ** Comparisons *)

Lemma leb_true (a b : R) : JS.leb a b = true <-> (a <= b)%R.
Proof.
  unfold JS.leb. destruct (Rle_dec a b); split; intros H;
    try reflexivity; try assumption; try discriminate; contradiction.
Qed.

Lemma geb_true (a b : R) : JS.geb a b = true <-> (b <= a)%R.
Proof. unfold JS.geb. apply leb_true. Qed.

Lemma ltb_true (a b : R) : JS.ltb a b = true <-> (a < b)%R.
Proof.
  unfold JS.ltb. destruct (Rlt_dec a b); split; intros H;
    try reflexivity; try assumption; try discriminate; contradiction.
Qed.

Lemma gtb_true (a b : R) : JS.gtb a b = true <-> (b < a)%R.
Proof. unfold JS.gtb. apply ltb_true. Qed.

(** ** The fold stack, continued *)

Section FoldStackMore.

Import FoldingEngine.

Variable SHIRT_CONFIG : ShirtConfig.
Variable FOLD_CONFIG : FoldConfig.

Lemma derivedLayers_shape (fs : list Fold) :
  exists n : nat,
    (Z.of_nat n <= Z.max 0 (MAX_LAYERS FOLD_CONFIG))%Z /\
    Spec.derivedLayers FOLD_CONFIG fs =
    map (fun i => {| index := i;
                     opacity := 1 - INR i * LAYER_OPACITY_STEP FOLD_CONFIG |})
        (seq 0 n).
Proof.
  unfold Spec.derivedLayers, updateLayers, JS.Array_fill_map. simpl.
  destruct (_ || _)%bool eqn:E; simpl.
  - exists 0%nat. split; [lia|reflexivity].
  - eexists. split; [|reflexivity].
    apply orb_false_iff in E as [E _]. apply Z.ltb_ge in E. lia.
Qed.

(** In every state the engine reaches there are at most [MAX_LAYERS]
    layers, whatever folds were applied, undone or redone. *)
Theorem layers_never_exceed_cap calls :
  (0 <= MAX_LAYERS FOLD_CONFIG)%Z ->
  (JS.length (layers (run SHIRT_CONFIG FOLD_CONFIG calls))
   <= MAX_LAYERS FOLD_CONFIG)%Z.
Proof.
  intros Hcap.
  destruct (run_consistent SHIRT_CONFIG FOLD_CONFIG calls) as [->|[_ ->]].
  - destruct (derivedLayers_shape
                (folds (run SHIRT_CONFIG FOLD_CONFIG calls)))
      as [n [Hn ->]].
    unfold JS.length. rewrite length_map, length_seq. lia.
  - unfold JS.length. simpl. lia.
Qed.

(** In every state the engine reaches, the i-th layer carries index [i]
    and opacity [1 - i * LAYER_OPACITY_STEP]. *)
Theorem layers_are_indexed calls :
  let ls := layers (run SHIRT_CONFIG FOLD_CONFIG calls) in
  ls = map (fun i => {| index := i;
                        opacity := 1 - INR i * LAYER_OPACITY_STEP FOLD_CONFIG |})
           (seq 0 (List.length ls)).
Proof.
  cbv zeta.
  destruct (run_consistent SHIRT_CONFIG FOLD_CONFIG calls) as [->|[_ ->]].
  - destruct (derivedLayers_shape
                (folds (run SHIRT_CONFIG FOLD_CONFIG calls)))
      as [n [_ ->]].
    now rewrite length_map, length_seq.
  - reflexivity.
Qed.

Lemma createFold_None random foldType params :
  createFold SHIRT_CONFIG random foldType params = None <-> foldType = None.
Proof.
  destruct foldType as [[| | |]|]; simpl; split; intros H;
    try discriminate; reflexivity.
Qed.

(** How a call of [applyFold] can end.  It returns [true] exactly when
    the engine was below the layer cap and the fold type is known: the
    new fold is then on top of the stack and the one event emitted
    carries it with the new layers.  It returns [false] exactly when the
    cap was reached or the type is unknown, and then nothing changed
    and nothing was emitted.  It throws only after pushing the fold,
    leaving no layers. *)
Theorem applyFold_outcome random (s : State) foldType params :
  let result := applyFold SHIRT_CONFIG FOLD_CONFIG random s foldType params in
  match snd result with
  | Returned true events =>
      (JS.length (layers s) < MAX_LAYERS FOLD_CONFIG)%Z /\
      exists fold,
        createFold SHIRT_CONFIG random foldType params = Some fold /\
        folds (fst result) = JS.push (folds s) fold /\
        undoStack (fst result) = undoStack s /\
        events = [FOLD_APPLIED fold (Some (layers (fst result)))]
  | Returned false events =>
      ((MAX_LAYERS FOLD_CONFIG <= JS.length (layers s))%Z \/
       foldType = None) /\
      fst result = s /\ events = []
  | Threw =>
      (JS.length (layers s) < MAX_LAYERS FOLD_CONFIG)%Z /\
      exists fold,
        createFold SHIRT_CONFIG random foldType params = Some fold /\
        folds (fst result) = JS.push (folds s) fold /\
        undoStack (fst result) = undoStack s /\
        layers (fst result) = []
  end.
Proof.
  unfold applyFold.
  destruct (_ <=? _)%Z eqn:Ecap.
  - simpl. apply Z.leb_le in Ecap. repeat split. now left.
  - apply Z.leb_gt in Ecap.
    destruct (createFold _ _ _ _) as [fold|] eqn:Efold.
    + unfold updateLayers. simpl.
      destruct (JS.Array_fill_map _ _); simpl;
        (split; [lia|]); exists fold; repeat split.
    + simpl. apply createFold_None in Efold. repeat split. now right.
Qed.

(** [undo] is refused exactly on the empty stack and [redo] exactly on
    the empty buffer; a refused call returns [false], emits nothing and
    leaves the state as it was. *)
Theorem undo_redo_refused_iff_empty (s : State) :
  (snd (undo FOLD_CONFIG s) = Returned false [] <-> folds s = []) /\
  (snd (redo FOLD_CONFIG s) = Returned false [] <-> undoStack s = []) /\
  (snd (undo FOLD_CONFIG s) = Returned false [] ->
   fst (undo FOLD_CONFIG s) = s) /\
  (snd (redo FOLD_CONFIG s) = Returned false [] ->
   fst (redo FOLD_CONFIG s) = s).
Proof.
  unfold undo, redo.
  destruct (JS.pop (folds s)) as [[f rest]|] eqn:Ef;
    destruct (JS.pop (undoStack s)) as [[u rest']|] eqn:Eu;
    repeat match goal with
           | H : JS.pop _ = Some _ |- _ => apply pop_Some in H
           | H : JS.pop _ = None |- _ => apply pop_None in H
           end;
    repeat match goal with
           | |- context [updateLayers ?c ?t] => destruct (updateLayers c t)
           end;
    simpl; repeat split; intros H; try discriminate; try reflexivity;
      try assumption;
      rewrite H in *; unfold JS.push in *;
        match goal with
        | E : [] = _ ++ [_] |- _ => destruct (app_cons_not_nil _ _ _ E)
        end.
Qed.

(** Undoing a fold that was just applied: the stack is what it was
    before the fold, and the fold waits on top of the redo buffer.  If
    the stack was not empty, the layers are what they were too. *)
Theorem applyFold_then_undo calls random foldType params fold :
  let s := run SHIRT_CONFIG FOLD_CONFIG calls in
  let applied :=
    fst (applyFold SHIRT_CONFIG FOLD_CONFIG random s foldType params) in
  (JS.length (layers s) < MAX_LAYERS FOLD_CONFIG)%Z ->
  createFold SHIRT_CONFIG random foldType params = Some fold ->
  folds (fst (undo FOLD_CONFIG applied)) = folds s /\
  undoStack (fst (undo FOLD_CONFIG applied)) = JS.push (undoStack s) fold /\
  (folds s <> [] -> layers (fst (undo FOLD_CONFIG applied)) = layers s).
Proof.
  intros s applied Hcap Hfold.
  assert (E : applied =
              {| folds := JS.push (folds s) fold; undoStack := undoStack s;
                 layers := Spec.derivedLayers FOLD_CONFIG
                                              (JS.push (folds s) fold) |}).
  { subst applied. unfold applyFold.
    destruct (_ <=? _)%Z eqn:Ecap; [apply Z.leb_le in Ecap; lia|].
    rewrite Hfold.
    match goal with
    | |- context [updateLayers FOLD_CONFIG ?s1] =>
        pose proof (updateLayers_settles FOLD_CONFIG s1) as H;
        destruct (updateLayers FOLD_CONFIG s1); simpl in *; exact H
    end. }
  rewrite E, undo_state. simpl. rewrite pop_push. simpl.
  repeat split. intros Hne.
  destruct (run_consistent SHIRT_CONFIG FOLD_CONFIG calls) as [Hl|[Hf _]];
    [|contradiction].
  symmetry. exact Hl.
Qed.

(** A fold never stores a zero parameter: a missing or zero [numFolds],
    [rotations] or [angle] is replaced by 3, 2 or 45, and a missing or
    empty [direction] by [horizontal].  An accordion multiplies the
    layers by its fold count and stores as many crease lines, a spiral
    by twice its rotations, a diagonal by 2, a crumple by the number of
    its anchor points, which is 5 when none are given. *)
Theorem created_folds_have_no_zero_parameter random params :
  match createAccordionFold SHIRT_CONFIG params with
  | AccordionFold direction numFolds lines multiplier =>
      numFolds <> 0%Z /\ direction <> EmptyString /\
      multiplier = numFolds /\ List.length lines = Z.to_nat numFolds
  | _ => False
  end /\
  match createSpiralFold SHIRT_CONFIG params with
  | SpiralFold _ _ rotations multiplier =>
      rotations <> 0%Z /\ multiplier = (rotations * 2)%Z
  | _ => False
  end /\
  match createCrumpleFold SHIRT_CONFIG random params with
  | CrumpleFold points multiplier =>
      multiplier = JS.length points /\
      match param_points params with
      | Some given => points = given
      | None => multiplier = 5%Z
      end
  | _ => False
  end /\
  match createDiagonalFold params with
  | DiagonalFold angle multiplier => angle <> 0%R /\ multiplier = 2%Z
  | _ => False
  end.
Proof.
  unfold createAccordionFold, createSpiralFold, createCrumpleFold,
    createDiagonalFold.
  repeat split.
  - unfold JS.orZ. destruct (param_numFolds params) as [n|]; [|discriminate].
    destruct (n =? 0)%Z eqn:E; [discriminate|]. now apply Z.eqb_neq.
  - unfold JS.orString.
    destruct (param_direction params) as [[|a d]|]; discriminate.
  - apply accordion_line_count.
  - unfold JS.orZ. destruct (param_rotations params) as [n|]; [|discriminate].
    destruct (n =? 0)%Z eqn:E; [discriminate|]. now apply Z.eqb_neq.
  - destruct (param_points params); reflexivity.
  - unfold JS.orR. destruct (param_angle params) as [a|].
    + destruct (Req_dec_T a 0); [lra|assumption].
    + lra.
Qed.

End FoldStackMore.

(** ** The garment geometry *)

Section Garment.

Local Open Scope R_scope.

Variable SHIRT_CONFIG : ShirtConfig.

Local Notation "'left'" := (Spec.bodyLeft SHIRT_CONFIG).
Local Notation "'top'" := (Spec.bodyTop SHIRT_CONFIG).
Local Notation "'bodyWidth'" := (Spec.bodyWidth SHIRT_CONFIG).
Local Notation "'bodyHeight'" := (Spec.bodyHeight SHIRT_CONFIG).

Ltac to_props :=
  rewrite ?orb_true_iff, ?andb_true_iff, ?orb_true_iff, ?andb_true_iff,
    ?leb_true, ?geb_true, ?ltb_true, ?gtb_true.

(** A point is on the shirt exactly when it lies in the body rectangle
    or in one of the two sleeve rectangles, borders included: the
    sleeves are 80 wide and 120 high, start 20 below the top of the
    body and adjoin its left and right edges.  The neckline is not cut
    out. *)
Theorem isPointOnShirt_iff_in_body_or_sleeve (x y : R) :
  TShirtCanvas.isPointOnShirt SHIRT_CONFIG x y = true <->
  (left <= x <= left + bodyWidth /\ top <= y <= top + bodyHeight) \/
  (left - 80 <= x <= left /\ top + 20 <= y <= top + 140) \/
  (left + bodyWidth <= x <= left + bodyWidth + 80 /\
   top + 20 <= y <= top + 140).
Proof.
  unfold TShirtCanvas.isPointOnShirt, Spec.bodyLeft, Spec.bodyTop,
    Spec.bodyWidth, Spec.bodyHeight, Spec.body. simpl.
  match goal with
  | |- (if ?b then true else ?c) = true <-> _ =>
      replace (if b then true else c) with (b || c)%bool
        by (destruct b; reflexivity)
  end.
  to_props.
  set (cx := CENTER_X SHIRT_CONFIG). set (cy := CENTER_Y SHIRT_CONFIG).
  set (w := WIDTH SHIRT_CONFIG). set (h := HEIGHT SHIRT_CONFIG).
  split.
  - intros [H|[H|[H|H]]].
    + left. lra.
    + destruct H as [[[H|H] ?] ?]; [lra|right; left; lra].
    + destruct H as [[[H|H] ?] ?]; [right; right; lra|lra].
    + discriminate.
  - intros [H|[H|H]].
    + left. lra.
    + right. left. split; [split; [right; lra|lra]|lra].
    + right. right. left. split; [split; [left; lra|lra]|lra].
Qed.

Lemma isPointOnShirt_body (x y : R) :
  left <= x <= left + bodyWidth -> top <= y <= top + bodyHeight ->
  TShirtCanvas.isPointOnShirt SHIRT_CONFIG x y = true.
Proof.
  unfold TShirtCanvas.isPointOnShirt, Spec.bodyLeft, Spec.bodyTop,
    Spec.bodyWidth, Spec.bodyHeight, Spec.body. simpl.
  intros Hx Hy.
  match goal with
  | |- (if ?b then true else ?c) = true =>
      assert (E : b = true) by (to_props; lra); now rewrite E
  end.
Qed.

(** The anchor points a crumple fold draws at random lie on the body of
    the shirt, and there are as many as asked for, provided the random
    numbers lie in [0, 1), the shirt is at least 80 high and its width
    is not negative. *)
Theorem random_crumple_points_on_body (random : nat -> R) (count : nat) :
  (forall k, 0 <= random k < 1) ->
  0 <= WIDTH SHIRT_CONFIG -> 80 <= HEIGHT SHIRT_CONFIG ->
  List.length
    (FoldingEngine.generateRandomCrumplePoints SHIRT_CONFIG random count) =
  count /\
  Forall (fun p => TShirtCanvas.isPointOnShirt SHIRT_CONFIG (pt_x p) (pt_y p)
                   = true)
         (FoldingEngine.generateRandomCrumplePoints SHIRT_CONFIG random count).
Proof.
  intros Hrandom Hw Hh. unfold FoldingEngine.generateRandomCrumplePoints.
  split; [now rewrite length_map, length_seq|].
  apply Forall_forall. intros p Hp.
  apply in_map_iff in Hp as [i [<- _]]. simpl.
  assert (Hscale : forall k a, 0 <= a -> 0 <= random k * a <= a)
    by (intros k a Ha; specialize (Hrandom k); nra).
  apply isPointOnShirt_body;
    unfold Spec.bodyLeft, Spec.bodyTop, Spec.bodyWidth, Spec.bodyHeight,
      Spec.body; simpl.
  - match goal with
    | |- context [random ?k * _] => pose proof (Hscale k _ Hw)
    end. lra.
  - assert (Hbody : 0 <= HEIGHT SHIRT_CONFIG - 80) by lra.
    match goal with
    | |- context [random ?k * _] => pose proof (Hscale k _ Hbody)
    end. lra.
Qed.

End Garment.

(** ** Accordion crease lines, continued *)

Section AccordionMore.

Import FoldingEngine.

Local Open Scope R_scope.
Local Open Scope string_scope.

Variable SHIRT_CONFIG : ShirtConfig.

(** Neighbouring creases of an accordion fold are one spacing apart and
    otherwise alike: horizontal creases differ by the shirt height over
    [numFolds + 1] in [y], vertical ones by the shirt width over
    [numFolds + 1] in [x]. *)
Theorem accordion_creases_evenly_spaced (direction : string) (numFolds : Z)
        (i : nat) (a b : Line) :
  let lines := calculateAccordionLines SHIRT_CONFIG direction numFolds in
  nth_error lines i = Some a -> nth_error lines (S i) = Some b ->
  if String.eqb direction "horizontal" then
    y1 b - y1 a = HEIGHT SHIRT_CONFIG / (IZR numFolds + 1) /\
    y2 b - y2 a = HEIGHT SHIRT_CONFIG / (IZR numFolds + 1) /\
    x1 b = x1 a /\ x2 b = x2 a
  else
    x1 b - x1 a = WIDTH SHIRT_CONFIG / (IZR numFolds + 1) /\
    x2 b - x2 a = WIDTH SHIRT_CONFIG / (IZR numFolds + 1) /\
    y1 b = y1 a /\ y2 b = y2 a.
Proof.
  cbv zeta. unfold calculateAccordionLines.
  destruct (String.eqb direction "horizontal");
    rewrite !nth_error_map, !nth_error_seq;
    destruct (i <? Z.to_nat numFolds)%nat; [|discriminate| |discriminate];
    destruct (S i <? Z.to_nat numFolds)%nat; try discriminate;
    simpl option_map; intros [= <-] [= <-]; cbn [x1 y1 x2 y2];
    repeat split; ring.
Qed.

End AccordionMore.

(** ** Colours, continued *)

Section MixingMore.

Import ColorManager.

Local Open Scope R_scope.

Lemma Math_round_between (lo hi : Z) (v : R) :
  IZR lo <= v <= IZR hi -> (lo <= JS.Math_round v <= hi)%Z.
Proof.
  intros [Hlo Hhi]. unfold JS.Math_round.
  destruct (base_Int_part (v + / 2)) as [Hle Hgt].
  split.
  - apply Z.lt_pred_le. apply lt_IZR. unfold Z.pred. rewrite plus_IZR. lra.
  - apply Z.lt_succ_r. apply lt_IZR. unfold Z.succ. rewrite plus_IZR. lra.
Qed.

Lemma mixed_channel_between (ca cb : Z) (t : R) :
  0 <= t <= 1 ->
  (Z.min ca cb
   <= JS.Math_round
        ((1 - ((1 - IZR ca / 255) * (1 - t) + (1 - IZR cb / 255) * t)) * 255)
   <= Z.max ca cb)%Z.
Proof.
  intros Ht. apply Math_round_between.
  destruct (Z.le_ge_cases ca cb) as [H|H].
  - rewrite Z.min_l, Z.max_r by lia. apply IZR_le in H. nra.
  - rewrite Z.min_r, Z.max_l by lia. apply IZR_le in H. nra.
Qed.

(** Mixing with a ratio between 0 and 1 stays between the two colours,
    channel by channel; mixing two colours with channels in 0..255
    therefore gives a colour with channels in 0..255. *)
Theorem mixColors_between_its_colours (a b : Color) (t : R) :
  0 <= t <= 1 ->
  (Z.min (r a) (r b) <= r (mixColors a b t) <= Z.max (r a) (r b))%Z /\
  (Z.min (g a) (g b) <= g (mixColors a b t) <= Z.max (g a) (g b))%Z /\
  (Z.min (ColorManager.b a) (ColorManager.b b)
   <= ColorManager.b (mixColors a b t)
   <= Z.max (ColorManager.b a) (ColorManager.b b))%Z.
Proof.
  intros Ht. destruct a as [ra ga ba], b as [rb gb bb].
  unfold mixColors, cmyToRgb, rgbToCmy. simpl.
  repeat split; apply mixed_channel_between; exact Ht.
Qed.

(** [blendLayers] returns the colour of a single layer whatever its
    intensity, and blending one more layer on top of a non-empty stack
    mixes it into the blend of that stack with its intensity as the
    ratio. *)
Theorem blendLayers_one_more_layer (bottom : DyeLayer)
        (layers : list DyeLayer) (top : DyeLayer) :
  blendLayers [bottom] = color bottom /\
  blendLayers ((bottom :: layers) ++ [top]) =
  mixColors (blendLayers (bottom :: layers)) (color top) (intensity top).
Proof.
  split; [reflexivity|].
  assert (E : forall rest,
             blendLayers (bottom :: rest) =
             fold_left (fun result layer =>
                          mixColors result (color layer) (intensity layer))
                       rest (color bottom))
    by (intros [|l rest]; reflexivity).
  rewrite <- app_comm_cons, !E, fold_left_app. reflexivity.
Qed.

End MixingMore.

(** ** The dye model, continued *)

Section DyeModelMore.

Import DyePhysics.

Local Open Scope R_scope.

Variable SHIRT_CONFIG : ShirtConfig.
Variable DYE_CONFIG : DyeConfig.
Variable distance : R -> R -> R -> R -> R.

Lemma clamp_within (lo hi v : R) :
  lo <= hi ->
  lo <= Rmax lo (Rmin v hi) <= hi /\
  (lo <= v <= hi -> Rmax lo (Rmin v hi) = v).
Proof.
  intros Hlh. unfold Rmax, Rmin.
  destruct (Rle_dec v hi); destruct (Rle_dec lo _); split; lra.
Qed.

(** [setBrushSize] and [setIntensity] clamp: for every number given
    (a number other than [NaN], which [Math.min] and [Math.max] would
    hand through), the stored one lies within the configured bounds,
    and a value already within them is stored as it is.  Neither
    touches the recorded dye points. *)
Theorem dye_setters_clamp (s : State) (v : R) :
  BRUSH_MIN_SIZE DYE_CONFIG <= BRUSH_MAX_SIZE DYE_CONFIG ->
  MIN_INTENSITY DYE_CONFIG <= MAX_INTENSITY DYE_CONFIG ->
  (BRUSH_MIN_SIZE DYE_CONFIG
   <= currentBrushSize (setBrushSize DYE_CONFIG s v)
   <= BRUSH_MAX_SIZE DYE_CONFIG) /\
  (BRUSH_MIN_SIZE DYE_CONFIG <= v <= BRUSH_MAX_SIZE DYE_CONFIG ->
   currentBrushSize (setBrushSize DYE_CONFIG s v) = v) /\
  (MIN_INTENSITY DYE_CONFIG
   <= currentIntensity (setIntensity DYE_CONFIG s v)
   <= MAX_INTENSITY DYE_CONFIG) /\
  (MIN_INTENSITY DYE_CONFIG <= v <= MAX_INTENSITY DYE_CONFIG ->
   currentIntensity (setIntensity DYE_CONFIG s v) = v) /\
  dyePoints (setBrushSize DYE_CONFIG s v) = dyePoints s /\
  dyePoints (setIntensity DYE_CONFIG s v) = dyePoints s.
Proof.
  intros Hb Hi. simpl.
  destruct (clamp_within v Hb) as [B1 B2].
  destruct (clamp_within v Hi) as [I1 I2].
  repeat split; try apply B1; try apply I1; assumption.
Qed.

(** What one call does to the recorded dye points.  [clear] drops them
    all.  A stroke call either changes nothing at all (the point is off
    the shirt, or [continueApplying] comes while no stroke is open) or
    appends exactly one dye point, at the given position, on the shirt,
    with the current brush size and intensity, and leaves a stroke
    open.  No other call changes them; recorded points are never
    altered or reordered. *)
Theorem dye_points_change_only_by_appending (s : State) (call : Call) :
  let s' := step SHIRT_CONFIG DYE_CONFIG s call in
  match call with
  | CallClear => dyePoints s' = [] /\ dyeLayer s' = []
  | CallStartApplying env x0 y0 | CallContinueApplying env x0 y0 =>
      (TShirtCanvas.isPointOnShirt SHIRT_CONFIG x0 y0 = false /\ s' = s) \/
      (match call with
       | CallContinueApplying _ _ _ => isApplying s = false
       | _ => False
       end /\ s' = s) \/
      (TShirtCanvas.isPointOnShirt SHIRT_CONFIG x0 y0 = true /\
       isApplying s' = true /\
       exists dp,
         dyePoints s' = dyePoints s ++ [dp] /\
         x dp = x0 /\ y dp = y0 /\
         radius dp = currentBrushSize s /\
         intensity dp = currentIntensity s /\
         color dp = currentColor env)
  | _ => dyePoints s' = dyePoints s /\ dyeLayer s' = dyeLayer s
  end.
Proof.
  destruct call as [size|i|env x0 y0|env x0 y0| |]; simpl;
    try (split; reflexivity).
  - unfold startApplying.
    destruct (TShirtCanvas.isPointOnShirt SHIRT_CONFIG x0 y0); simpl.
    + right. right. repeat split. eexists. repeat split.
    + left. now split.
  - unfold continueApplying.
    destruct (isApplying s) eqn:Ea; simpl.
    + destruct (TShirtCanvas.isPointOnShirt SHIRT_CONFIG x0 y0); simpl.
      * right. right. repeat split; [exact Ea|]. eexists. repeat split.
      * left. now split.
    + right. left. now split.
Qed.

(** Every dye point the model holds lies on the shirt. *)
Theorem recorded_dye_points_on_shirt calls :
  Forall (fun dp => TShirtCanvas.isPointOnShirt SHIRT_CONFIG (x dp) (y dp)
                    = true)
         (dyePoints (run SHIRT_CONFIG DYE_CONFIG calls)).
Proof.
  induction calls as [|call calls IH] using rev_ind; [constructor|].
  unfold run in *. rewrite fold_left_app. simpl.
  set (s := fold_left (step SHIRT_CONFIG DYE_CONFIG) calls
                      (initial DYE_CONFIG)) in *.
  destruct call as [size|i|env x0 y0|env x0 y0| |]; simpl; try exact IH.
  - unfold startApplying.
    destruct (TShirtCanvas.isPointOnShirt SHIRT_CONFIG x0 y0) eqn:E; simpl;
      [|exact IH].
    apply Forall_app. split; [exact IH|]. constructor; [exact E|constructor].
  - unfold continueApplying.
    destruct (isApplying s); simpl; [|exact IH].
    destruct (TShirtCanvas.isPointOnShirt SHIRT_CONFIG x0 y0) eqn:E; simpl;
      [|exact IH].
    apply Forall_app. split; [exact IH|]. constructor; [exact E|constructor].
  - constructor.
Qed.

(** If the defaults lie within the configured bounds, then in every
    state the model reaches by calls whose arguments are numbers other
    than [NaN], the brush size and the intensity lie within them, and
    so do the radius and the intensity of every recorded dye point. *)
Theorem brush_and_intensity_stay_within_bounds calls :
  BRUSH_MIN_SIZE DYE_CONFIG <= BRUSH_DEFAULT_SIZE DYE_CONFIG
  <= BRUSH_MAX_SIZE DYE_CONFIG ->
  MIN_INTENSITY DYE_CONFIG <= DEFAULT_INTENSITY DYE_CONFIG
  <= MAX_INTENSITY DYE_CONFIG ->
  let s := run SHIRT_CONFIG DYE_CONFIG calls in
  (BRUSH_MIN_SIZE DYE_CONFIG <= currentBrushSize s
   <= BRUSH_MAX_SIZE DYE_CONFIG) /\
  (MIN_INTENSITY DYE_CONFIG <= currentIntensity s
   <= MAX_INTENSITY DYE_CONFIG) /\
  Forall (fun dp =>
            (BRUSH_MIN_SIZE DYE_CONFIG <= radius dp
             <= BRUSH_MAX_SIZE DYE_CONFIG) /\
            (MIN_INTENSITY DYE_CONFIG <= intensity dp
             <= MAX_INTENSITY DYE_CONFIG))
         (dyePoints s).
Proof.
  intros Hb Hi. cbv zeta.
  induction calls as [|call calls IH] using rev_ind.
  - simpl. repeat split; try lra. constructor.
  - unfold run in *. rewrite fold_left_app. simpl.
    set (s := fold_left (step SHIRT_CONFIG DYE_CONFIG) calls
                        (initial DYE_CONFIG)) in *.
    destruct IH as [IHb [IHi IHp]].
    assert (Hmore : forall dp,
               radius dp = currentBrushSize s ->
               intensity dp = currentIntensity s ->
               Forall (fun dp =>
                         (BRUSH_MIN_SIZE DYE_CONFIG <= radius dp
                          <= BRUSH_MAX_SIZE DYE_CONFIG) /\
                         (MIN_INTENSITY DYE_CONFIG <= intensity dp
                          <= MAX_INTENSITY DYE_CONFIG))
                      (dyePoints s ++ [dp])).
    { intros dp Er Ei. apply Forall_app. split; [exact IHp|].
      constructor; [|constructor]. rewrite Er, Ei. split; assumption. }
    destruct call as [size|i|env x0 y0|env x0 y0| |]; simpl.
    + split; [|split; assumption]. apply clamp_within; lra.
    + split; [assumption|]. split; [|assumption]. apply clamp_within; lra.
    + unfold startApplying.
      destruct (TShirtCanvas.isPointOnShirt SHIRT_CONFIG x0 y0); simpl;
        repeat split; try apply IHb; try apply IHi; try assumption.
      now apply Hmore.
    + unfold continueApplying.
      destruct (isApplying s); simpl;
        [destruct (TShirtCanvas.isPointOnShirt SHIRT_CONFIG x0 y0); simpl|];
        repeat split; try apply IHb; try apply IHi; try assumption.
      now apply Hmore.
    + repeat split; try apply IHb; try apply IHi; assumption.
    + repeat split; try apply IHb; try apply IHi. constructor.
Qed.

(** One application paints the dye point's disc and, unless the dye is
    too weak to bleed ([intensity * ABSORPTION_RATE < 5]), eight bleed
    discs after it: the dye layer grows by 9 discs, or by 1. *)
Theorem applyDye_paints_one_or_nine_discs (env : Env) (s : State)
        (x0 y0 : R) :
  List.length (dyeLayer (fst (applyDye DYE_CONFIG env s x0 y0))) =
  (List.length (dyeLayer s) +
   if JS.ltb (currentIntensity s * ABSORPTION_RATE DYE_CONFIG) 5
   then 1 else 9)%nat.
Proof.
  simpl. rewrite !length_app. unfold simulateBleed. simpl.
  destruct (JS.ltb _ 5); simpl; reflexivity.
Qed.

(** The bleed points of a dye lie on a ring around it: with random
    numbers in [0, 1), each is at least half the bleed radius and less
    than the bleed radius away from the centre, and has its colour. *)
Theorem bleed_points_lie_on_a_ring (random : nat -> R)
        (centerPoint : DyePoint) (bleedRadius : R) (point : BleedPoint) :
  0 <= bleedRadius ->
  (forall k, 0 <= random k < 1) ->
  In point (generateBleedPoints random centerPoint bleedRadius) ->
  let dx := bleed_x point - x centerPoint in
  let dy := bleed_y point - y centerPoint in
  (bleedRadius / 2) * (bleedRadius / 2) <= dx * dx + dy * dy
  <= bleedRadius * bleedRadius /\
  bleed_color point = color centerPoint.
Proof.
  intros Hr Hrandom Hin. unfold generateBleedPoints in Hin.
  apply in_map_iff in Hin as [i [<- _]]. cbv zeta. simpl.
  split; [|reflexivity].
  set (angle := INR i / (1 + 1 + 1 + 1 + 1 + 1 + 1 + 1) * PI * 2).
  set (d := bleedRadius * (0.5 + random i * 0.5)).
  assert (Hd : bleedRadius / 2 <= d <= bleedRadius)
    by (subst d; specialize (Hrandom i); nra).
  assert (E : (x centerPoint + cos angle * d - x centerPoint) *
              (x centerPoint + cos angle * d - x centerPoint) +
              (y centerPoint + sin angle * d - y centerPoint) *
              (y centerPoint + sin angle * d - y centerPoint) = d * d).
  { pose proof (sin2_cos2 angle) as T. unfold Rsqr in T.
    replace (_ + _) with (d * d * (sin angle * sin angle +
                                   cos angle * cos angle)) by ring.
    rewrite T. ring. }
  rewrite E. nra.
Qed.

(** The weight of a dye at a position lies between 0 and the dye's
    intensity; it is the full intensity at the dye's centre and 0 from
    the rim of its radius outwards. *)
Theorem falloff_weight_bounds (x0 y0 : R) (dyePoint : DyePoint) :
  0 <= intensity dyePoint -> 0 < radius dyePoint ->
  0 <= distance x0 y0 (x dyePoint) (y dyePoint) ->
  let weight := calculateIntensityAtPoint distance x0 y0 dyePoint in
  0 <= weight <= intensity dyePoint /\
  (distance x0 y0 (x dyePoint) (y dyePoint) = 0 ->
   weight = intensity dyePoint) /\
  (radius dyePoint <= distance x0 y0 (x dyePoint) (y dyePoint) ->
   weight = 0).
Proof.
  intros Hi Hr Hd. unfold calculateIntensityAtPoint.
  set (d := distance x0 y0 (x dyePoint) (y dyePoint)) in *.
  set (q := d / radius dyePoint).
  assert (Eq : q * radius dyePoint = d) by (subst q; field; lra).
  assert (Hq : 0 <= q) by nra.
  cbv zeta. unfold Rmax.
  destruct (Rle_dec 0 (1 - q)) as [Hle|Hgt].
  - split; [nra|]. split; intros H; nra.
  - split; [lra|]. split; intros H; nra.
Qed.

(** Folded layers only ever weaken a dye: for a dye of non-negative
    intensity applied on at least one layer the effective intensity
    lies between 0 and the intensity, it is the intensity itself on a
    single layer, and it does not grow with the layer count. *)
Theorem effective_intensity_attenuates (dyePoint other : DyePoint) :
  0 <= intensity dyePoint ->
  (1 <= layerCount dyePoint)%Z ->
  0 <= effectiveIntensity dyePoint <= intensity dyePoint /\
  (layerCount dyePoint = 1%Z ->
   effectiveIntensity dyePoint = intensity dyePoint) /\
  (intensity other = intensity dyePoint ->
   (layerCount dyePoint <= layerCount other)%Z ->
   effectiveIntensity other <= effectiveIntensity dyePoint).
Proof.
  intros Hi Hn. unfold effectiveIntensity.
  pose proof (sqrt_layerCount_ge_1 Hn) as Hs.
  set (root := sqrt (IZR (layerCount dyePoint))) in *.
  assert (E : intensity dyePoint / root * root = intensity dyePoint)
    by (field; lra).
  split; [split; nra|]. split.
  - intros H1. subst root. rewrite H1, sqrt_1. lra.
  - intros Ei Hle. rewrite Ei.
    assert (Hroot : root <= sqrt (IZR (layerCount other)))
      by (apply sqrt_le_1_alt, IZR_le; exact Hle).
    set (root' := sqrt (IZR (layerCount other))) in *.
    assert (E' : intensity dyePoint / root' * root' = intensity dyePoint)
      by (field; lra).
    assert (0 <= intensity dyePoint / root') by nra.
    nra.
Qed.

(** Where exactly one recorded dye covers a position the result is that
    dye's colour, unmixed: neither its intensity nor the distance from
    its centre lightens it. *)
Theorem single_covering_dye_gives_its_colour (s : State) (x0 y0 : R)
        (dyePoint : DyePoint) :
  Spec.covering distance x0 y0 (dyePoints s) = [dyePoint] ->
  mixDyesAtPoint distance s x0 y0 = color dyePoint.
Proof.
  unfold Spec.covering, mixDyesAtPoint, JS.leb. intros ->. reflexivity.
Qed.

End DyeModelMore.

(** ** The unfolder, continued *)

Section Geometry.

Import PatternGenerator.

Local Open Scope R_scope.
Local Open Scope string_scope.

(** Rotating about a centre keeps the distance to the centre, rotating
    by 0 moves nothing, and rotating by [a] and then by [b] is rotating
    by [a + b]. *)
Theorem rotatePoint_is_a_rotation (x y centerX centerY a b : R) :
  let p := rotatePoint x y centerX centerY a in
  (pt_x p - centerX) * (pt_x p - centerX) +
  (pt_y p - centerY) * (pt_y p - centerY) =
  (x - centerX) * (x - centerX) + (y - centerY) * (y - centerY) /\
  rotatePoint x y centerX centerY 0 = {| pt_x := x; pt_y := y |} /\
  rotatePoint (pt_x p) (pt_y p) centerX centerY b =
  rotatePoint x y centerX centerY (a + b).
Proof.
  cbv zeta. unfold rotatePoint. simpl. split; [|split].
  - pose proof (sin2_cos2 a) as T. unfold Rsqr in T.
    set (c := cos a) in *. set (s := sin a) in *.
    replace (_ + _)
      with (((x - centerX) * (x - centerX) + (y - centerY) * (y - centerY)) *
            (s * s + c * c)) by ring.
    rewrite T. ring.
  - rewrite cos_0, sin_0. f_equal; ring.
  - rewrite cos_plus, sin_plus. f_equal; ring.
Qed.

(** Mirroring across a crease twice gives the point back, the crease
    lies midway between a point and its mirror image, and only the
    coordinate across the crease changes. *)
Theorem mirrorPoint_is_an_involution (x y : R) (line : Line)
        (direction : string) :
  let p := mirrorPoint x y line direction in
  mirrorPoint (pt_x p) (pt_y p) line direction = {| pt_x := x; pt_y := y |} /\
  if String.eqb direction "horizontal"
  then pt_x p = x /\ (y + pt_y p) / 2 = y1 line
  else pt_y p = y /\ (x + pt_x p) / 2 = x1 line.
Proof.
  cbv zeta. unfold mirrorPoint.
  destruct (String.eqb direction "horizontal"); simpl;
    (split; [f_equal; lra|split; lra]).
Qed.

(** Mirroring across the diagonal twice gives the point back, and the
    mirror image is as far from the centre as the point. *)
Theorem mirrorDiagonal_is_an_involution (x y centerX centerY angle : R) :
  let p := mirrorDiagonal x y centerX centerY angle in
  mirrorDiagonal (pt_x p) (pt_y p) centerX centerY angle =
  {| pt_x := x; pt_y := y |} /\
  (pt_x p - centerX) * (pt_x p - centerX) +
  (pt_y p - centerY) * (pt_y p - centerY) =
  (x - centerX) * (x - centerX) + (y - centerY) * (y - centerY).
Proof.
  cbv zeta. unfold mirrorDiagonal. simpl.
  pose proof (sin2_cos2 (2 * (angle * PI / 180))) as T. unfold Rsqr in T.
  set (c := cos (2 * (angle * PI / 180))) in *.
  set (s := sin (2 * (angle * PI / 180))) in *.
  split.
  - f_equal.
    + replace (_ + _ + _)
        with (centerX + (x - centerX) * (s * s + c * c)) by ring.
      rewrite T. ring.
    + replace (_ + _ - _)
        with (centerY + (y - centerY) * (s * s + c * c)) by ring.
      rewrite T. ring.
  - replace (_ + _)
      with (((x - centerX) * (x - centerX) + (y - centerY) * (y - centerY)) *
            (s * s + c * c)) by ring.
    rewrite T. ring.
Qed.

End Geometry.

Section UnfolderMore.

Import PatternGenerator.

Local Open Scope R_scope.

Variable SHIRT_CONFIG : ShirtConfig.
Variable random : nat -> R.

Lemma forEach_fill (discs : list (Canvas.Disc ColorManager.Color)) ctx :
  snd (forEach fill discs ctx) =
  {| finalLayer := finalLayer ctx ++ discs; randomCalls := randomCalls ctx |}.
Proof.
  revert ctx. induction discs as [|d discs IH]; intros ctx; simpl.
  - rewrite app_nil_r. now destruct ctx.
  - unfold bind. simpl. rewrite IH. simpl. now rewrite <- app_assoc.
Qed.

(** With no fold on the stack [generatePattern] makes the final layer a
    copy of the dye layer, whatever the final layer held, and asks for
    no random number.  With a fold on the stack it does not look at the
    dye layer at all: the final layer is built from the recorded dye
    points, so what was painted on the dye layer besides them, the
    bleed discs, is not carried over. *)
Theorem generatePattern_copies_only_without_folds
        (dyePoints : list DyePhysics.DyePoint)
        (dyeLayer other : list (Canvas.Disc ColorManager.Color)) ctx :
  (let result := generatePattern SHIRT_CONFIG random [] dyePoints dyeLayer ctx in
   fst result = [UNFOLD_START; UNFOLD_COMPLETE] /\
   finalLayer (snd result) = dyeLayer /\
   randomCalls (snd result) = randomCalls ctx) /\
  (forall fold folds,
      generatePattern SHIRT_CONFIG random (fold :: folds) dyePoints dyeLayer ctx =
      generatePattern SHIRT_CONFIG random (fold :: folds) dyePoints other ctx /\
      snd (generatePattern SHIRT_CONFIG random (fold :: folds) dyePoints
                           dyeLayer ctx) =
      snd (unfoldPattern SHIRT_CONFIG random (fold :: folds) dyePoints ctx)).
Proof.
  split.
  - unfold generatePattern, copyDyeToFinal, bind. simpl.
    pose proof (forEach_fill dyeLayer
                  {| finalLayer := []; randomCalls := randomCalls ctx |}) as E.
    destruct (forEach fill dyeLayer _) as [u ctx']. simpl in *.
    rewrite E. simpl. repeat split.
  - intros fold folds. unfold generatePattern.
    replace (JS.length (fold :: folds) =? 0)%Z with false
      by (unfold JS.length; simpl; lia).
    split; [reflexivity|].
    unfold bind.
    destruct (unfoldPattern SHIRT_CONFIG random (fold :: folds) dyePoints ctx).
    reflexivity.
Qed.

(** *** What is painted *)

Lemma paintsOnly_ret {A} P (a : A) : Spec.paintsOnly P (ret a).
Proof. intros ctx H. exact H. Qed.

Lemma paintsOnly_bind {A B} P (ma : M A) (f : A -> M B) :
  Spec.paintsOnly P ma -> (forall a, Spec.paintsOnly P (f a)) ->
  Spec.paintsOnly P (bind ma f).
Proof.
  intros Hma Hf ctx H. unfold bind.
  specialize (Hma ctx H). destruct (ma ctx) as [a ctx']. now apply Hf.
Qed.

Lemma paintsOnly_forEach {A} P (f : A -> M unit) (array : list A) :
  (forall a, In a array -> Spec.paintsOnly P (f a)) ->
  Spec.paintsOnly P (forEach f array).
Proof.
  induction array as [|a array IH]; intros Hf; simpl.
  - apply paintsOnly_ret.
  - apply paintsOnly_bind; [apply Hf; now left|].
    intros _. apply IH. intros a' Ha'. apply Hf. now right.
Qed.

Lemma paintsOnly_renderFinalPoint dyePoints (p : DyePhysics.DyePoint)
      (x y intensity : R) :
  In p dyePoints ->
  intensity = DyePhysics.intensity p \/
  intensity = DyePhysics.intensity p * 0.7 ->
  Spec.paintsOnly (Spec.rendersOneOf dyePoints)
                  (renderFinalPoint x y (DyePhysics.color p) intensity
                                    (DyePhysics.radius p)).
Proof.
  intros Hp Hi ctx H. simpl. apply Forall_app. split; [exact H|].
  constructor; [|constructor].
  exists p. repeat split; [exact Hp|].
  unfold Spec.centreAlpha. simpl. destruct Hi as [->| ->]; [now left|now right].
Qed.

Lemma paintsOnly_applyUnfoldTransform fold
      (dyePoints : list DyePhysics.DyePoint) :
  Spec.paintsOnly (Spec.rendersOneOf dyePoints)
                  (applyUnfoldTransform SHIRT_CONFIG random fold dyePoints).
Proof.
  destruct fold as [direction numFolds lines mult
                   |centerX centerY rotations mult
                   |points mult
                   |angle mult]; simpl;
    apply paintsOnly_forEach; intros point Hpoint.
  - unfold renderPointWithSymmetry.
    apply paintsOnly_bind;
      [apply paintsOnly_renderFinalPoint; [exact Hpoint|now left]|].
    intros _. apply paintsOnly_forEach. intros line _.
    apply paintsOnly_renderFinalPoint; [exact Hpoint|now left].
  - apply paintsOnly_forEach. intros i _.
    apply paintsOnly_renderFinalPoint; [exact Hpoint|now left].
  - intros ctx H. unfold bind, generateCrumpleVariations.
    match goal with
    | |- context [crumpleCopies random point points ?vs ctx] =>
        destruct (collects_crumpleCopies random point points vs ctx)
          as [Hl _];
        destruct (crumpleCopies random point points vs ctx)
          as [variations ctx']
    end.
    simpl in Hl. rewrite <- Hl in H.
    apply (@paintsOnly_forEach _ (Spec.rendersOneOf dyePoints) _ variations);
      [|exact H].
    intros varied _.
    apply paintsOnly_renderFinalPoint; [exact Hpoint|now right].
  - apply paintsOnly_bind; [|intros _];
      (apply paintsOnly_renderFinalPoint; [exact Hpoint|now left]).
Qed.

Lemma paintsOnly_unfoldLoop (n : nat) folds
      (dyePoints : list DyePhysics.DyePoint) :
  Spec.paintsOnly (Spec.rendersOneOf dyePoints)
                  (unfoldLoop SHIRT_CONFIG random n folds dyePoints).
Proof.
  induction n as [|i IH]; simpl; [apply paintsOnly_ret|].
  apply paintsOnly_bind; [|intros _; exact IH].
  destruct (nth_error folds i);
    [apply paintsOnly_applyUnfoldTransform|apply paintsOnly_ret].
Qed.

(** Every disc of the unfolded pattern renders one of the recorded dye
    points: it has that point's colour and radius and, at its centre,
    an alpha of 60% of the point's intensity (60% of 0.7 times the
    intensity for the copies of a crumple fold).  Nothing of what the
    final layer held before remains. *)
Theorem unfolded_discs_render_dye_points folds
        (dyePoints : list DyePhysics.DyePoint) ctx :
  Forall (Spec.rendersOneOf dyePoints)
         (finalLayer (snd (unfoldPattern SHIRT_CONFIG random folds
                                         dyePoints ctx))).
Proof.
  unfold unfoldPattern, bind. simpl.
  apply paintsOnly_unfoldLoop. constructor.
Qed.

(** *** How many random numbers are used *)

Lemma draws_ret {A} (a : A) : Spec.draws (ret a) 0.
Proof. intros ctx. simpl. lia. Qed.

Lemma draws_bind {A B} (ma : M A) (f : A -> M B) (j k : nat) :
  Spec.draws ma j -> (forall a, Spec.draws (f a) k) ->
  Spec.draws (bind ma f) (j + k).
Proof.
  intros Hma Hf ctx. unfold bind.
  specialize (Hma ctx). destruct (ma ctx) as [a ctx']. simpl in Hma.
  rewrite Hf, Hma. lia.
Qed.

Lemma draws_forEach {A} (f : A -> M unit) (k : nat) (array : list A) :
  (forall a, Spec.draws (f a) k) ->
  Spec.draws (forEach f array) (List.length array * k).
Proof.
  intros Hf. induction array as [|a array IH]; simpl.
  - apply draws_ret.
  - apply draws_bind; [apply Hf|intros _; exact IH].
Qed.

Lemma draws_forEach_none {A} (f : A -> M unit) (array : list A) :
  (forall a, Spec.draws (f a) 0) -> Spec.draws (forEach f array) 0.
Proof.
  intros Hf. rewrite <- (Nat.mul_0_r (List.length array)).
  now apply draws_forEach.
Qed.

Lemma draws_renderFinalPoint (x y : R) color (intensity radius : R) :
  Spec.draws (renderFinalPoint x y color intensity radius) 0.
Proof. intros ctx. simpl. lia. Qed.

Lemma draws_crumpleCopies point crumplePoints variations :
  Spec.draws (crumpleCopies random point crumplePoints variations)
             (2 * List.length crumplePoints).
Proof.
  revert variations.
  induction crumplePoints as [|cp rest IH]; intros variations ctx; simpl.
  - lia.
  - unfold bind at 1. simpl. unfold bind at 1. simpl.
    etransitivity; [apply IH|]. simpl. lia.
Qed.

Lemma draws_applyUnfoldTransform fold (dyePoints : list DyePhysics.DyePoint) :
  Spec.draws (applyUnfoldTransform SHIRT_CONFIG random fold dyePoints)
             (List.length dyePoints * Spec.randomCallsPerPoint fold).
Proof.
  destruct fold as [direction numFolds lines mult
                   |centerX centerY rotations mult
                   |points mult
                   |angle mult]; cbn [applyUnfoldTransform
                                      Spec.randomCallsPerPoint];
    apply draws_forEach; intros point.
  - unfold renderPointWithSymmetry.
    apply (@draws_bind _ _ _ _ 0 0); [apply draws_renderFinalPoint|].
    intros _. apply draws_forEach_none. intros line.
    apply draws_renderFinalPoint.
  - apply draws_forEach_none. intros i. apply draws_renderFinalPoint.
  - replace (2 * List.length points)%nat
      with (2 * List.length points + 0)%nat by lia.
    apply draws_bind; [apply draws_crumpleCopies|].
    intros variations. apply draws_forEach_none. intros varied.
    apply draws_renderFinalPoint.
  - apply (@draws_bind _ _ _ _ 0 0); [|intros _];
      apply draws_renderFinalPoint.
Qed.

Lemma draws_unfoldLoop (n : nat) folds dyePoints :
  (n <= List.length folds)%nat ->
  Spec.draws (unfoldLoop SHIRT_CONFIG random n folds dyePoints)
             (List.length dyePoints *
              list_sum (map Spec.randomCallsPerPoint (firstn n folds))).
Proof.
  induction n as [|i IH]; intros Hn.
  - simpl. rewrite Nat.mul_0_r. apply draws_ret.
  - destruct (nth_error folds i) as [fold|] eqn:E;
      [|apply nth_error_None in E; lia].
    rewrite (firstn_S_nth_error _ _ E), map_app, list_sum_app. simpl.
    rewrite E.
    replace (List.length dyePoints *
             (list_sum (map Spec.randomCallsPerPoint (firstn i folds)) +
              (Spec.randomCallsPerPoint fold + 0)))%nat
      with (List.length dyePoints * Spec.randomCallsPerPoint fold +
            List.length dyePoints *
            list_sum (map Spec.randomCallsPerPoint (firstn i folds)))%nat
      by lia.
    apply draws_bind; [apply draws_applyUnfoldTransform|].
    intros _. apply IH. lia.
Qed.

(** Unfolding asks for two random numbers per dye point and anchor
    point of every crumple fold on the stack, and for none on account
    of the other folds: without a crumple fold the pattern does not
    depend on chance. *)
Theorem unfoldPattern_random_calls folds dyePoints ctx :
  randomCalls (snd (unfoldPattern SHIRT_CONFIG random folds dyePoints ctx)) =
  (randomCalls ctx +
   List.length dyePoints *
   list_sum (map Spec.randomCallsPerPoint folds))%nat.
Proof.
  unfold unfoldPattern, bind. simpl.
  rewrite draws_unfoldLoop by lia. now rewrite firstn_all.
Qed.

End UnfolderMore.

(** ** The controller *)

Section Controller.

Import UIController.

Local Open Scope R_scope.

Variable SHIRT_CONFIG : ShirtConfig.
Variable FOLD_CONFIG : FoldConfig.
Variable DYE_CONFIG : DyeConfig.

Lemma applyFold_pushes_created random (s : FoldingEngine.State)
      foldType params :
  fst (FoldingEngine.applyFold SHIRT_CONFIG FOLD_CONFIG random s
                               foldType params) = s \/
  exists fold,
    FoldingEngine.createFold SHIRT_CONFIG random foldType params = Some fold /\
    FoldingEngine.folds
      (fst (FoldingEngine.applyFold SHIRT_CONFIG FOLD_CONFIG random s
                                    foldType params)) =
    JS.push (FoldingEngine.folds s) fold /\
    FoldingEngine.undoStack
      (fst (FoldingEngine.applyFold SHIRT_CONFIG FOLD_CONFIG random s
                                    foldType params)) =
    FoldingEngine.undoStack s.
Proof.
  unfold FoldingEngine.applyFold.
  destruct (_ <=? _)%Z; [now left|].
  destruct (FoldingEngine.createFold _ _ _ _) as [fold|]; [|now left].
  right. exists fold. split; [reflexivity|].
  unfold FoldingEngine.updateLayers. simpl.
  destruct (JS.Array_fill_map _ _); simpl; split; reflexivity.
Qed.

Lemma ui_fold_multiplier random foldType fold :
  FoldingEngine.createFold SHIRT_CONFIG random foldType
                           (getFoldParameters foldType) = Some fold ->
  (2 <= FoldingEngine.layerMultiplier fold <= 5)%Z.
Proof.
  destruct foldType as [[| | |]|]; simpl; intros [= <-]; simpl;
    try lia.
  unfold JS.length. simpl. lia.
Qed.

(** The folding engine behind the controller is always in a state its
    own calls reach, and every fold the controller has put on the stack
    or into the redo buffer multiplies the layers by 3 (accordion), 4
    (spiral), 5 (crumple) or 2 (diagonal): by at least 2 and at most
    5. *)
Theorem ui_folds_multiply_by_two_to_five (events : list UIEvent) :
  let engine := foldingEngine (run SHIRT_CONFIG FOLD_CONFIG DYE_CONFIG events) in
  (exists calls, engine = FoldingEngine.run SHIRT_CONFIG FOLD_CONFIG calls) /\
  Forall (fun fold => (2 <= FoldingEngine.layerMultiplier fold <= 5)%Z)
         (FoldingEngine.folds engine) /\
  Forall (fun fold => (2 <= FoldingEngine.layerMultiplier fold <= 5)%Z)
         (FoldingEngine.undoStack engine).
Proof.
  cbv zeta. induction events as [|event events IH] using rev_ind.
  - split; [exists []; reflexivity|]. split; constructor.
  - unfold run in *. rewrite fold_left_app. simpl.
    set (s := fold_left (handle SHIRT_CONFIG FOLD_CONFIG DYE_CONFIG) events
                        (initial DYE_CONFIG)) in *.
    destruct IH as [[calls Ecalls] [Hf Hu]].
    assert (Hstep : forall call,
               exists calls',
                 FoldingEngine.step SHIRT_CONFIG FOLD_CONFIG
                                    (foldingEngine s) call =
                 FoldingEngine.run SHIRT_CONFIG FOLD_CONFIG calls').
    { intros call. exists (calls ++ [call]).
      unfold FoldingEngine.run. rewrite fold_left_app. simpl.
      now rewrite Ecalls. }
    assert (Hsame : exists calls',
               foldingEngine s =
               FoldingEngine.run SHIRT_CONFIG FOLD_CONFIG calls')
      by (now exists calls).
    destruct event as [random dataset| | | |rgb|v|v| |now random point
                       |now random point| | | | |]; simpl.
    + split; [exact (Hstep (FoldingEngine.CallApplyFold
                              random dataset (getFoldParameters dataset)))|].
      destruct (applyFold_pushes_created random (foldingEngine s) dataset
                                         (getFoldParameters dataset))
        as [->|[fold [Hc [-> ->]]]]; [now split|].
      split; [|exact Hu]. apply Forall_app. split; [exact Hf|].
      constructor; [|constructor]. exact (ui_fold_multiplier _ _ Hc).
    + split; [exact (Hstep FoldingEngine.CallUndo)|].
      rewrite undo_state.
      destruct (JS.pop (FoldingEngine.folds (foldingEngine s)))
        as [[fold rest]|] eqn:E; [|now split].
      apply pop_Some in E. rewrite E in Hf. apply Forall_app in Hf as [Hr Hl].
      simpl. split; [exact Hr|]. apply Forall_app. now split.
    + split; [exact (Hstep FoldingEngine.CallRedo)|].
      rewrite redo_state.
      destruct (JS.pop (FoldingEngine.undoStack (foldingEngine s)))
        as [[fold rest]|] eqn:E; [|now split].
      apply pop_Some in E. rewrite E in Hu. apply Forall_app in Hu as [Hr Hl].
      simpl. split; [|exact Hr]. apply Forall_app. now split.
    + split; [exact (Hstep FoldingEngine.CallClear)|]. split; constructor.
    + unfold setColor. destruct rgb; now split.
    + now split.
    + now split.
    + now split.
    + unfold handleCanvasMouseDown. destruct (currentPhase s); now split.
    + unfold handleCanvasMouseMove. destruct (currentPhase s); now split.
    + unfold handleCanvasMouseUp. destruct (currentPhase s); now split.
    + unfold handleCanvasMouseUp. destruct (currentPhase s); now split.
    + unfold previousPhase. destruct (currentPhase s); now split.
    + unfold nextPhase. destruct (currentPhase s); now split.
    + split; [exact (Hstep FoldingEngine.CallClear)|]. split; constructor.
Qed.

(** Dye can only be applied after the controller has left the folding
    phase: as long as the next-phase button has not been pressed, the
    controller is in phase [FOLD] and no dye point is recorded,
    whatever is done with the mouse. *)
Theorem no_dye_before_leaving_the_fold_phase (events : list UIEvent) :
  Forall (fun event => event <> ClickNextPhase) events ->
  let s := run SHIRT_CONFIG FOLD_CONFIG DYE_CONFIG events in
  currentPhase s = FOLD /\ DyePhysics.dyePoints (dyePhysics s) = [].
Proof.
  cbv zeta. induction events as [|event events IH] using rev_ind;
    intros Hno; [now split|].
  apply Forall_app in Hno as [Hno Hevent].
  apply Forall_inv in Hevent.
  unfold run in *. rewrite fold_left_app. simpl.
  set (s := fold_left (handle SHIRT_CONFIG FOLD_CONFIG DYE_CONFIG) events
                      (initial DYE_CONFIG)) in *.
  destruct (IH Hno) as [Hphase Hpoints].
  destruct event as [random dataset| | | |rgb|v|v| |now random point
                     |now random point| | | | |]; simpl;
    try (now split);
    try (unfold handleCanvasMouseDown, handleCanvasMouseMove,
           handleCanvasMouseUp, previousPhase;
         rewrite Hphase; now split);
    try (unfold setColor; destruct rgb; now split);
    try contradiction.
Qed.

End Controller.

(** ** Concrete instances of the further properties *)

(** An accordion of 3 and a spiral of 2 ask for 12 layers; the cap of 8
    holds. *)
Lemma layers_never_exceed_cap_witness :
  (0 <= MAX_LAYERS Sample.foldConfig)%Z /\
  (JS.length
     (FoldingEngine.layers
        (FoldingEngine.run Sample.shirt Sample.foldConfig
                           [Sample.applyAccordion "horizontal" 3;
                            Sample.applySpiral 2]))
   <= MAX_LAYERS Sample.foldConfig)%Z.
Proof.
  assert (H : (0 <= MAX_LAYERS Sample.foldConfig)%Z) by (simpl; lia).
  split; [exact H|].
  exact (@layers_never_exceed_cap Sample.shirt Sample.foldConfig _ H).
Defined.

(** A spiral applied on top of an accordion and undone again. *)
Lemma applyFold_then_undo_witness :
  let s := FoldingEngine.run Sample.shirt Sample.foldConfig
                             [Sample.applyAccordion "horizontal" 3] in
  let spiral := FoldingEngine.createSpiralFold Sample.shirt
                                               (Sample.spiralParams 2) in
  let applied :=
    fst (FoldingEngine.applyFold Sample.shirt Sample.foldConfig Sample.random
                                 s (Some FoldingEngine.SPIRAL)
                                 (Sample.spiralParams 2)) in
  (JS.length (FoldingEngine.layers s) < MAX_LAYERS Sample.foldConfig)%Z /\
  FoldingEngine.createFold Sample.shirt Sample.random
                           (Some FoldingEngine.SPIRAL)
                           (Sample.spiralParams 2) = Some spiral /\
  FoldingEngine.folds (fst (FoldingEngine.undo Sample.foldConfig applied)) =
  FoldingEngine.folds s /\
  FoldingEngine.undoStack (fst (FoldingEngine.undo Sample.foldConfig applied)) =
  [spiral].
Proof.
  cbv zeta.
  assert (Hcap : (JS.length
                    (FoldingEngine.layers
                       (FoldingEngine.run Sample.shirt Sample.foldConfig
                          [Sample.applyAccordion "horizontal" 3]))
                  < MAX_LAYERS Sample.foldConfig)%Z) by reflexivity.
  assert (Hfold : FoldingEngine.createFold
                    Sample.shirt Sample.random (Some FoldingEngine.SPIRAL)
                    (Sample.spiralParams 2) =
                  Some (FoldingEngine.createSpiralFold
                          Sample.shirt (Sample.spiralParams 2)))
    by reflexivity.
  split; [exact Hcap|]. split; [exact Hfold|].
  destruct (@applyFold_then_undo Sample.shirt Sample.foldConfig
              [Sample.applyAccordion "horizontal" 3] Sample.random
              (Some FoldingEngine.SPIRAL) (Sample.spiralParams 2) _
              Hcap Hfold) as [Hf [Hu _]].
  split; [exact Hf|exact Hu].
Defined.

(** Five anchor points drawn with every random number one half. *)
Lemma random_crumple_points_on_body_witness :
  (forall k, 0 <= Sample.random k < 1)%R /\
  (0 <= WIDTH Sample.shirt)%R /\ (80 <= HEIGHT Sample.shirt)%R /\
  Forall (fun p => TShirtCanvas.isPointOnShirt Sample.shirt (pt_x p) (pt_y p)
                   = true)
         (FoldingEngine.generateRandomCrumplePoints Sample.shirt
                                                    Sample.random 5).
Proof.
  assert (Hr : forall k, (0 <= Sample.random k < 1)%R)
    by (intros k; unfold Sample.random; lra).
  assert (Hw : (0 <= WIDTH Sample.shirt)%R) by (simpl; lra).
  assert (Hh : (80 <= HEIGHT Sample.shirt)%R) by (simpl; lra).
  split; [exact Hr|]. split; [exact Hw|]. split; [exact Hh|].
  exact (proj2 (@random_crumple_points_on_body Sample.shirt Sample.random 5
                  Hr Hw Hh)).
Defined.

(** The first of three vertical creases on the sample shirt. *)
Lemma accordion_vertical_lines_inside_witness :
  (0 < Spec.bodyWidth Sample.shirt)%R /\
  exists line,
    nth_error (FoldingEngine.calculateAccordionLines Sample.shirt "vertical" 3)
              0 = Some line /\
    (Spec.bodyLeft Sample.shirt < x1 line
     < Spec.bodyLeft Sample.shirt + Spec.bodyWidth Sample.shirt)%R.
Proof.
  assert (Hw : (0 < Spec.bodyWidth Sample.shirt)%R)
    by (unfold Spec.bodyWidth, Spec.body; simpl; lra).
  split; [exact Hw|].
  eexists. split; [reflexivity|].
  match goal with
  | |- (_ < x1 ?line < _)%R =>
      destruct (@accordion_vertical_lines_inside Sample.shirt 3 line Hw
                  (or_introl eq_refl))
        as [i [_ [_ [_ [Hin _]]]]]
  end.
  exact Hin.
Defined.

(** The first two of three horizontal creases on the sample shirt are a
    quarter of its height apart. *)
Lemma accordion_creases_evenly_spaced_witness :
  exists a b,
    nth_error (FoldingEngine.calculateAccordionLines
                 Sample.shirt "horizontal" 3) 0 = Some a /\
    nth_error (FoldingEngine.calculateAccordionLines
                 Sample.shirt "horizontal" 3) 1 = Some b /\
    (y1 b - y1 a = HEIGHT Sample.shirt / (3 + 1))%R.
Proof.
  eexists. eexists. split; [reflexivity|]. split; [reflexivity|].
  exact (proj1 (@accordion_creases_evenly_spaced
                  Sample.shirt "horizontal" 3 0 _ _ eq_refl eq_refl)).
Defined.

(** Red and blue mixed half and half. *)
Lemma mixColors_between_its_colours_witness :
  (0 <= / 2 <= 1)%R /\
  (0 <= ColorManager.r (ColorManager.mixColors Sample.red Sample.blue (/ 2))
   <= 255)%Z.
Proof.
  assert (Ht : (0 <= / 2 <= 1)%R) by lra.
  split; [exact Ht|].
  exact (proj1 (@mixColors_between_its_colours Sample.red Sample.blue _ Ht)).
Defined.

(** A brush size of 250 under bounds 5 and 100. *)
Lemma dye_setters_clamp_witness :
  (BRUSH_MIN_SIZE Sample.dyeConfig <= BRUSH_MAX_SIZE Sample.dyeConfig)%R /\
  (MIN_INTENSITY Sample.dyeConfig <= MAX_INTENSITY Sample.dyeConfig)%R /\
  (BRUSH_MIN_SIZE Sample.dyeConfig
   <= DyePhysics.currentBrushSize
        (DyePhysics.setBrushSize Sample.dyeConfig (Sample.dyeState []) 250)
   <= BRUSH_MAX_SIZE Sample.dyeConfig)%R.
Proof.
  assert (Hb : (BRUSH_MIN_SIZE Sample.dyeConfig
                <= BRUSH_MAX_SIZE Sample.dyeConfig)%R) by (simpl; lra).
  assert (Hi : (MIN_INTENSITY Sample.dyeConfig
                <= MAX_INTENSITY Sample.dyeConfig)%R) by (simpl; lra).
  split; [exact Hb|]. split; [exact Hi|].
  exact (proj1 (@dye_setters_clamp Sample.dyeConfig (Sample.dyeState [])
                  250%R Hb Hi)).
Defined.

(** A brush size of 500 is asked for, then a stroke is started at the
    centre of the shirt. *)
Lemma brush_and_intensity_stay_within_bounds_witness :
  let env := Spec.envOf FoldingEngine.initial Sample.red 0 Sample.random in
  let s := DyePhysics.run Sample.shirt Sample.dyeConfig
                          [DyePhysics.CallSetBrushSize 500;
                           DyePhysics.CallStartApplying env 400 300] in
  (BRUSH_MIN_SIZE Sample.dyeConfig <= BRUSH_DEFAULT_SIZE Sample.dyeConfig
   <= BRUSH_MAX_SIZE Sample.dyeConfig)%R /\
  (MIN_INTENSITY Sample.dyeConfig <= DEFAULT_INTENSITY Sample.dyeConfig
   <= MAX_INTENSITY Sample.dyeConfig)%R /\
  (BRUSH_MIN_SIZE Sample.dyeConfig <= DyePhysics.currentBrushSize s
   <= BRUSH_MAX_SIZE Sample.dyeConfig)%R.
Proof.
  cbv zeta.
  assert (Hb : (BRUSH_MIN_SIZE Sample.dyeConfig
                <= BRUSH_DEFAULT_SIZE Sample.dyeConfig
                <= BRUSH_MAX_SIZE Sample.dyeConfig)%R) by (simpl; lra).
  assert (Hi : (MIN_INTENSITY Sample.dyeConfig
                <= DEFAULT_INTENSITY Sample.dyeConfig
                <= MAX_INTENSITY Sample.dyeConfig)%R) by (simpl; lra).
  split; [exact Hb|]. split; [exact Hi|].
  exact (proj1 (@brush_and_intensity_stay_within_bounds
                  Sample.shirt Sample.dyeConfig _ Hb Hi)).
Defined.

(** The first bleed point of a dye at the origin, bleed radius 15. *)
Lemma bleed_points_lie_on_a_ring_witness :
  (0 <= 15)%R /\ (forall k, 0 <= Sample.random k < 1)%R /\
  exists point,
    nth_error (DyePhysics.generateBleedPoints
                 Sample.random (Sample.dyeAt 0 0 Sample.red 80 30) 15) 0 =
    Some point /\
    DyePhysics.bleed_color point = Sample.red.
Proof.
  assert (H15 : (0 <= 15)%R) by lra.
  assert (Hr : forall k, (0 <= Sample.random k < 1)%R)
    by (intros k; unfold Sample.random; lra).
  split; [exact H15|]. split; [exact Hr|].
  eexists. split; [reflexivity|].
  exact (proj2 (@bleed_points_lie_on_a_ring
                  Sample.random (Sample.dyeAt 0 0 Sample.red 80 30) 15 _
                  H15 Hr (or_introl eq_refl))).
Defined.

(** The weight of a blue dye of radius 30 centred 10 away. *)
Lemma falloff_weight_bounds_witness :
  let dye := Sample.dyeAt 10 0 Sample.blue 80 30 in
  (0 <= DyePhysics.intensity dye)%R /\ (0 < DyePhysics.radius dye)%R /\
  (0 <= Utils.distance 0 0 (DyePhysics.x dye) (DyePhysics.y dye))%R /\
  (0 <= DyePhysics.calculateIntensityAtPoint Utils.distance 0 0 dye
   <= DyePhysics.intensity dye)%R.
Proof.
  cbv zeta.
  assert (Hi : (0 <= DyePhysics.intensity
                       (Sample.dyeAt 10 0 Sample.blue 80 30))%R)
    by (simpl; lra).
  assert (Hr : (0 < DyePhysics.radius
                      (Sample.dyeAt 10 0 Sample.blue 80 30))%R)
    by (simpl; lra).
  assert (Hd : (0 <= Utils.distance
                       0 0 (DyePhysics.x (Sample.dyeAt 10 0 Sample.blue 80 30))
                       (DyePhysics.y (Sample.dyeAt 10 0 Sample.blue 80 30)))%R)
    by (unfold Utils.distance; apply sqrt_pos).
  split; [exact Hi|]. split; [exact Hr|]. split; [exact Hd|].
  exact (proj1 (@falloff_weight_bounds Utils.distance 0%R 0%R _ Hi Hr Hd)).
Defined.

(** A dye of intensity 80 on one layer and on four. *)
Lemma effective_intensity_attenuates_witness :
  let onOne := Sample.dyeAt 0 0 Sample.red 80 30 in
  let onFour :=
    {| DyePhysics.x := 0; DyePhysics.y := 0; DyePhysics.color := Sample.red;
       DyePhysics.intensity := 80; DyePhysics.radius := 30;
       DyePhysics.layerCount := 4; DyePhysics.timestamp := 0 |} in
  (0 <= DyePhysics.intensity onOne)%R /\
  (1 <= DyePhysics.layerCount onOne)%Z /\
  (DyePhysics.effectiveIntensity onFour
   <= DyePhysics.effectiveIntensity onOne)%R.
Proof.
  cbv zeta.
  assert (Hi : (0 <= DyePhysics.intensity
                       (Sample.dyeAt 0 0 Sample.red 80 30))%R)
    by (simpl; lra).
  assert (Hn : (1 <= DyePhysics.layerCount
                       (Sample.dyeAt 0 0 Sample.red 80 30))%Z)
    by (simpl; lia).
  split; [exact Hi|]. split; [exact Hn|].
  refine (proj2 (proj2 (@effective_intensity_attenuates _ _ Hi Hn)) _ _).
  - reflexivity.
  - simpl. lia.
Defined.

(** One red dye of radius 30, queried at its centre. *)
Lemma single_covering_dye_gives_its_colour_witness :
  let dye := Sample.dyeAt 0 0 Sample.red 80 30 in
  Spec.covering Utils.distance 0 0
                (DyePhysics.dyePoints (Sample.dyeState [dye])) = [dye] /\
  DyePhysics.mixDyesAtPoint Utils.distance (Sample.dyeState [dye]) 0 0 =
  Sample.red.
Proof.
  cbv zeta.
  assert (H : Spec.covering Utils.distance 0 0
                (DyePhysics.dyePoints
                   (Sample.dyeState [Sample.dyeAt 0 0 Sample.red 80 30])) =
              [Sample.dyeAt 0 0 Sample.red 80 30]).
  { unfold Spec.covering. simpl.
    destruct (Rle_dec (Utils.distance 0 0 0 0) 30) as [_|N]; [reflexivity|].
    exfalso. apply N. unfold Utils.distance.
    replace ((0 - 0) * (0 - 0) + (0 - 0) * (0 - 0))%R with 0%R by lra.
    rewrite sqrt_0. lra. }
  split; [exact H|].
  exact (@single_covering_dye_gives_its_colour Utils.distance _ 0%R 0%R _ H).
Defined.

(** Pressing the mouse on the shirt and applying a fold, all in the
    folding phase. *)
Lemma no_dye_before_leaving_the_fold_phase_witness :
  let events :=
    [UIController.MouseDown 0 Sample.random {| pt_x := 400; pt_y := 300 |};
     UIController.ClickFold Sample.random (Some FoldingEngine.ACCORDION);
     UIController.MouseUp] in
  Forall (fun event => event <> UIController.ClickNextPhase) events /\
  DyePhysics.dyePoints
    (UIController.dyePhysics
       (UIController.run Sample.shirt Sample.foldConfig Sample.dyeConfig
                         events)) = [].
Proof.
  cbv zeta.
  assert (H : Forall (fun event => event <> UIController.ClickNextPhase)
                     [UIController.MouseDown 0 Sample.random
                        {| pt_x := 400; pt_y := 300 |};
                      UIController.ClickFold Sample.random
                                             (Some FoldingEngine.ACCORDION);
                      UIController.MouseUp])
    by (repeat constructor; discriminate).
  split; [exact H|].
  exact (proj2 (@no_dye_before_leaving_the_fold_phase
                  Sample.shirt Sample.foldConfig Sample.dyeConfig _ H)).
Defined.

(** C8 with a rounding that is always one millionth too high, on red
    and blue at ratio one tenth. *)
Lemma mixColors_endpoints_and_complement_in_doubles_witness :
  let rnd := fun x : R => (x + / 1000000)%R in
  (0 <= / 1000000 <= / 100000)%R /\
  Spec.roundsWithin rnd (/ 1000000) /\
  Spec.validColor Sample.red /\ Spec.validColor Sample.blue /\
  Doubles.mixColors rnd Sample.red Sample.blue 0 = Sample.red /\
  Doubles.mixColors rnd Sample.red Sample.blue 1 = Sample.blue /\
  Spec.channelsWithin 1
    (Doubles.mixColors rnd Sample.red Sample.blue (/ 10))
    (Doubles.mixColors rnd Sample.blue Sample.red (rnd (1 - / 10)%R)).
Proof.
  cbv zeta.
  assert (He : (0 <= / 1000000 <= / 100000)%R) by lra.
  assert (Hr : Spec.roundsWithin (fun x : R => (x + / 1000000)%R)
                                 (/ 1000000))
    by (intros x _; lra).
  assert (Hred : Spec.validColor Sample.red)
    by (unfold Spec.validColor; simpl; lia).
  assert (Hblue : Spec.validColor Sample.blue)
    by (unfold Spec.validColor; simpl; lia).
  assert (Ht : (0 <= / 10 <= 1)%R) by lra.
  destruct (@mixColors_endpoints_and_complement_in_doubles
              _ _ He Hr Sample.red Sample.blue Hred Hblue)
    as [H0 [H1 Hsym]].
  repeat (split; [assumption|]). exact (Hsym _ Ht).
Defined.
